(** * Panel de Ventas SPV: loading, enrichment, filtering and aggregation

    A shallow embedding of [panel_de_ventas_con_google_drive.py].  The script
    is a Streamlit page: it downloads a spreadsheet, adds calendar columns,
    filters the table with the sidebar selection and shows aggregates.

    The pandas table is kept dynamically typed, as in the script: a cell is a
    missing value, a string, a number, a timestamp or a boolean, and a row
    maps column names to cells.  What the page shows with [st.spinner],
    [st.warning] and [st.error] is collected in a log next to the value a
    block computes. *)

From Stdlib Require Import ZArith QArith List String Ascii Bool Lia.
From Stdlib Require Import Numbers.DecimalString.
Import ListNotations.

Local Open Scope string_scope.
Local Open Scope list_scope.
Local Open Scope Z_scope.

(** ** Cells, rows and frames *)

(** A cell of a [DataFrame].  [NaN] stands for every missing marker of pandas
    (NaN, NaT, None).  [Int] and [Num] are the integer and the floating
    columns; floating values are taken as exact rationals, rounding is not
    modelled.  [Date] is a [datetime64[ns]] value: nanoseconds since
    1970-01-01T00:00. *)
Inductive Cell : Type :=
| NaN
| Str (s : string)
| Int (z : Z)
| Num (q : Q)
| Date (ns : Z)
| Bool (b : bool).

Definition Row : Type := list (string * Cell).

Record DataFrame : Type := mkDataFrame {
  columns : list string;
  rows : list Row
}.

Definition notna (c : Cell) : bool :=
  match c with NaN => false | _ => true end.

Definition num_of (c : Cell) : option Q :=
  match c with
  | Int z => Some (inject_Z z)
  | Num q => Some q
  | _ => None
  end.

(** [a == b] of pandas on two cells: a missing value equals nothing, numbers
    compare by value. *)
Definition eq_cell (a b : Cell) : bool :=
  match a, b with
  | NaN, _ | _, NaN => false
  | Str s, Str t => String.eqb s t
  | Date m, Date n => Z.eqb m n
  | Bool x, Bool y => Bool.eqb x y
  | _, _ =>
      match num_of a, num_of b with
      | Some p, Some q => Qeq_bool p q
      | _, _ => false
      end
  end.

(** Identity of values as [isin], [unique] and [nunique] see it: like
    [eq_cell], but two missing values are the same value. *)
Definition same_cell (a b : Cell) : bool :=
  match a, b with
  | NaN, NaN => true
  | _, _ => eq_cell a b
  end.

(** [series.isin(values)] on one cell. *)
Definition isin (c : Cell) (values : list Cell) : bool :=
  existsb (same_cell c) values.

Fixpoint row_get (c : string) (r : Row) : Cell :=
  match r with
  | [] => NaN
  | (k, v) :: r' => if String.eqb k c then v else row_get c r'
  end.

Fixpoint row_set (c : string) (v : Cell) (r : Row) : Row :=
  match r with
  | [] => [(c, v)]
  | (k, w) :: r' =>
      if String.eqb k c then (k, v) :: r' else (k, w) :: row_set c v r'
  end.

Definition has_column (c : string) (cols : list string) : bool :=
  existsb (String.eqb c) cols.

(** [df[c]] as a series. *)
Definition column (c : string) (df : DataFrame) : list Cell :=
  map (row_get c) (rows df).

(** [df[c] = f(row)]: an existing column is overwritten in place, a new one
    is appended. *)
Definition assign (c : string) (f : Row -> Cell) (df : DataFrame) : DataFrame :=
  {| columns := if has_column c (columns df) then columns df
                else columns df ++ [c];
     rows := map (fun r => row_set c (f r) r) (rows df) |}.

(** [df[mask]]: the rows where the mask holds, in order. *)
Definition select (mask : Row -> bool) (df : DataFrame) : DataFrame :=
  {| columns := columns df; rows := filter mask (rows df) |}.

(** [df.empty] *)
Definition empty (df : DataFrame) : bool :=
  match rows df with [] => true | _ => false end.

(** Drop repeated values, keeping first occurrences ([Series.unique]). *)
Fixpoint unique (cs : list Cell) : list Cell :=
  match cs with
  | [] => []
  | c :: cs' => c :: filter (fun d => negb (same_cell c d)) (unique cs')
  end.

(** [Series.nunique()]: the number of distinct values, missing ones left
    out. *)
Definition nunique (cs : list Cell) : Z :=
  Z.of_nat (List.length (unique (filter notna cs))).

(** [Series.sum()]: missing values are skipped, the empty sum is 0. *)
Fixpoint sum (cs : list Cell) : Q :=
  match cs with
  | [] => 0%Q
  | c :: cs' =>
      match num_of c with
      | Some q => (q + sum cs')%Q
      | None => sum cs'
      end
  end.

(** ** The page log *)

Inductive Event : Type :=
| Spinner (text : string)
| Warning (text : string)
| Error (text : string).

(** A block of the script: what it wrote on the page, and its value. *)
Definition Page (A : Type) : Type := (list Event * A)%type.

Definition ret {A} (a : A) : Page A := ([], a).

Definition bind {A B} (m : Page A) (k : A -> Page B) : Page B :=
  let (l1, a) := m in
  let (l2, b) := k a in
  (l1 ++ l2, b).

Definition tell (e : Event) : Page unit := ([e], tt).

Notation "x <- m ;; k" := (bind m (fun x => k))
  (at level 61, m at next level, right associativity).
Notation "m ;;; k" := (bind m (fun _ => k))
  (at level 61, right associativity).

(** ** Loading: [load_data] *)

(** A call into a library either raises (the text is [str(e)]) or returns. *)
Inductive Exc (A : Type) : Type :=
| Raised (msg : string)
| Ok (a : A).
Arguments Raised {A} msg.
Arguments Ok {A} a.

(** What lies outside the script when [load_data] runs.  A download leaves
    the bytes of the temporary file, or raises; [pd.read_excel] parses the
    bytes of a file, or raises. *)
Record World : Type := mkWorld {
  gdown_download : string -> Exc (list Byte.byte);
  requests_get : string -> Exc (list Byte.byte);
  read_excel : list Byte.byte -> Exc DataFrame
}.

Definition file_urls : list string :=
  [ "https://drive.google.com/uc?id=10NLcCVPLe3q9kpqFyOeCrOSY9d5U-WSA";
    "https://docs.google.com/spreadsheets/d/10NLcCVPLe3q9kpqFyOeCrOSY9d5U-WSA/export?format=xlsx" ].

Definition required_columns : list string :=
  [ "Vendedor"; "Fecha Pedido"; "Nombre Cliente"; "Codigo Cliente";
    "Pedido"; "Codigo Producto"; "Nombre Producto"; "Cantidad";
    "Precio"; "Monto Total"; "Caja"; "Centro" ].

(** [needle in hay] on strings. *)
Fixpoint contains (needle hay : string) : bool :=
  String.prefix needle hay ||
  match hay with
  | EmptyString => false
  | String _ hay' => contains needle hay'
  end.

(** [str(n)] for the source numbers shown to the user. *)
Definition show (n : nat) : string := NilZero.string_of_uint (Nat.to_uint n).

(** The columns of [required_columns] that the parsed file lacks. *)
Definition missing (df : DataFrame) : list string :=
  filter (fun col => negb (has_column col (columns df))) required_columns.

Definition descargando (i : nat) : Event :=
  Spinner ("Descargando desde fuente " ++ show (i + 1) ++ "...")%string.

Definition intento_fallido (i : nat) (e : string) : Event :=
  Warning ("Intento " ++ show (i + 1) ++ " fallido: " ++ e)%string.

Definition faltan_columnas (i : nat) (cols : list string) : Event :=
  Warning ("Fuente " ++ show (i + 1) ++ ": Faltan columnas: "
           ++ String.concat ", " cols)%string.

(** How one turn of the [for] loop ends: [continue], or [return df]. *)
Inductive Turn : Type :=
| Continue
| Return (df : DataFrame).

Definition download (W : World) (file_url : string) : Exc (list Byte.byte) :=
  if contains "drive.google.com" file_url
  then gdown_download W file_url
  else requests_get W file_url.

(** The body of the loop for source number [i] (counted from 0).  Every
    exception of the [try] block reaches the one [except] clause. *)
Definition attempt (W : World) (i : nat) (file_url : string) : Page Turn :=
  tell (descargando i) ;;;
  match download W file_url with
  | Raised e => tell (intento_fallido i e) ;;; ret Continue
  | Ok temp_file =>
      if (List.length temp_file =? 0)%nat then
        tell (intento_fallido i "El archivo descargado está vacío") ;;;
        ret Continue
      else
        match read_excel W temp_file with
        | Raised e => tell (intento_fallido i e) ;;; ret Continue
        | Ok df =>
            if negb (forallb (fun col => has_column col (columns df))
                             required_columns)
            then tell (faltan_columnas i (missing df)) ;;; ret Continue
            else ret (Return df)
        end
  end.

(** [for i, file_url in enumerate(file_urls)], entered at index [i]; after
    the loop comes the error and [return None]. *)
Fixpoint load_from (W : World) (i : nat) (urls : list string)
  : Page (option DataFrame) :=
  match urls with
  | [] =>
      tell (Error "❌ No se pudo cargar el archivo desde ninguna fuente disponible") ;;;
      ret None
  | file_url :: rest =>
      t <- attempt W i file_url ;;
      match t with
      | Return df => ret (Some df)
      | Continue => load_from W (S i) rest
      end
  end.

(** The function under the decorator. *)
Definition load_data (W : World) : Page (option DataFrame) :=
  load_from W 0 file_urls.

(** [@st.cache_data(ttl=...)] on a function without arguments.  The one
    entry keeps whatever the function returned, together with what it wrote
    on the page, and the time of the call; it is served while younger than
    [ttl] seconds.  The decorator does not look at the value. *)
Definition st_cache_data {A : Type} (ttl : Z) (f : World -> A)
    (cache : option (Z * A)) (now : Z) (W : World) : option (Z * A) * A :=
  match cache with
  | Some (stored, v) =>
      if now - stored <? ttl then (cache, v)
      else let v' := f W in (Some (now, v'), v')
  | None => let v' := f W in (Some (now, v'), v')
  end.

Definition Cache : Type := option (Z * Page (option DataFrame)).

(** [load_data()] as the script calls it, at time [now] (seconds). *)
Definition load_data_cached : Cache -> Z -> World -> Cache * Page (option DataFrame) :=
  st_cache_data 3600 load_data.

(** ** The calendar behind the [.dt] accessor *)

Module Calendar.

Definition NS_PER_HOUR : Z := 3600 * 1000000000.
Definition NS_PER_DAY : Z := 24 * NS_PER_HOUR.

(** Whole days since 1970-01-01, rounded down. *)
Definition days (ns : Z) : Z := ns / NS_PER_DAY.

(** Day number to (year, month, day) in the proleptic Gregorian calendar,
    counting in 400-year eras that start on 1 March. *)
Definition civil_from_days (d : Z) : Z * Z * Z :=
  let z := d + 719468 in
  let era := z / 146097 in
  let doe := z - era * 146097 in
  let yoe := (doe - doe / 1460 + doe / 36524 - doe / 146096) / 365 in
  let doy := doe - (365 * yoe + yoe / 4 - yoe / 100) in
  let mp := (5 * doy + 2) / 153 in
  let day := doy - (153 * mp + 2) / 5 + 1 in
  let month := if mp <? 10 then mp + 3 else mp - 9 in
  let year := yoe + era * 400 + (if month <=? 2 then 1 else 0) in
  (year, month, day).

(** (year, month, day) back to the day number. *)
Definition days_from_civil (year month day : Z) : Z :=
  let y := if month <=? 2 then year - 1 else year in
  let era := y / 400 in
  let yoe := y - era * 400 in
  let mp := if 2 <? month then month - 3 else month + 9 in
  let doy := (153 * mp + 2) / 5 + day - 1 in
  let doe := yoe * 365 + yoe / 4 - yoe / 100 + doy in
  era * 146097 + doe - 719468.

Definition year (ns : Z) : Z := fst (fst (civil_from_days (days ns))).
Definition month (ns : Z) : Z := snd (fst (civil_from_days (days ns))).
Definition day (ns : Z) : Z := snd (civil_from_days (days ns)).
Definition hour (ns : Z) : Z := (ns mod NS_PER_DAY) / NS_PER_HOUR.

(** Monday is 0; 1970-01-01 was a Thursday. *)
Definition weekday (ns : Z) : Z := (days ns + 3) mod 7.

Definition day_names : list string :=
  [ "Monday"; "Tuesday"; "Wednesday"; "Thursday"; "Friday"; "Saturday";
    "Sunday" ].

Definition day_name (ns : Z) : string :=
  nth (Z.to_nat (weekday ns)) day_names "".

(** ISO 8601 week: the week of a date is numbered within the year that
    holds its Thursday. *)
Definition week (ns : Z) : Z :=
  let thursday := days ns - weekday ns + 3 in
  let y := fst (fst (civil_from_days thursday)) in
  (thursday - days_from_civil y 1 1) / 7 + 1.

End Calendar.

(** ** Validation and enrichment of the loaded table *)

(** What the script does with the value of [load_data()]: it stops on
    [None] and on an empty table.  [None] here means [st.stop()]. *)
Definition validar (loaded : option DataFrame) : Page (option DataFrame) :=
  match loaded with
  | None =>
      tell (Error "🚨 No se pudieron cargar los datos. La aplicación se detendrá.") ;;;
      ret None
  | Some df =>
      if empty df then
        tell (Error "⚠️ Los datos cargados no son válidos o están vacíos.") ;;;
        ret None
      else ret (Some df)
  end.

Definition is_date (c : Cell) : bool :=
  match c with Date _ => true | _ => false end.

(** A column has a datetime dtype, so that [.dt] is available, when it holds
    timestamps and missing values only, and at least one timestamp. *)
Definition is_datetime (cs : list Cell) : bool :=
  forallb (fun c => is_date c || negb (notna c)) cs && existsb is_date cs.

(** [df['Fecha Pedido'].dt.<field>] on one row: missing stays missing. *)
Definition dt (field : Z -> Cell) (r : Row) : Cell :=
  match row_get "Fecha Pedido" r with
  | Date ns => field ns
  | _ => NaN
  end.

Definition dias_semana : list string :=
  [ "Monday"; "Tuesday"; "Wednesday"; "Thursday"; "Friday"; "Saturday";
    "Sunday" ].

Definition dias_habiles_semana : list string :=
  [ "Monday"; "Tuesday"; "Wednesday"; "Thursday"; "Friday"; "Saturday" ].

(** [pd.Categorical(values, categories=...)] on one cell: a value outside
    the categories becomes missing. *)
Definition categorical (categories : list string) (c : Cell) : Cell :=
  if isin c (map Str categories) then c else NaN.

(** The assignments of the block, in order. *)
Definition enriquecer (df : DataFrame) : DataFrame :=
  let df := assign "Mes" (dt (fun ns => Int (Calendar.month ns))) df in
  let df := assign "Ano" (dt (fun ns => Int (Calendar.year ns))) df in
  let df := assign "Dia" (dt (fun ns => Int (Calendar.day ns))) df in
  let df := assign "Dia Semana" (dt (fun ns => Str (Calendar.day_name ns))) df in
  let df := assign "Semana" (dt (fun ns => Int (Calendar.week ns))) df in
  let df := assign "Hora" (dt (fun ns => Int (Calendar.hour ns))) df in
  let df := assign "Dia Semana"
              (fun r => categorical dias_semana (row_get "Dia Semana" r)) df in
  assign "Es Dia Habitl"
    (fun r => Bool (isin (row_get "Dia Semana" r) (map Str dias_habiles_semana)))
    df.

(** The [try] block of the section: without a datetime column the accessor
    raises, the page shows the error and stops ([None]).  The two date
    strings kept for the sidebar footer are left out. *)
Definition procesamiento (df : DataFrame) : Page (option DataFrame) :=
  if is_datetime (column "Fecha Pedido" df) then ret (Some (enriquecer df))
  else
    tell (Error "❌ Error al procesar fechas: Can only use .dt accessor with datetimelike values") ;;;
    ret None.

(** ** The sidebar selection and the filter *)

(** The four sidebar widgets: one year, one month, the chosen centers and
    the chosen salespeople (values of the [Centro] and [Vendedor]
    columns). *)
Record Seleccion : Type := mkSeleccion {
  año_seleccionado : Z;
  mes_seleccionado : Z;
  centros_seleccionados : list Cell;
  vendedores_seleccionados : list Cell
}.

(** The boolean mask used for [df_filtrado] and again for
    [df_mes_anterior], on one row. *)
Definition mascara (año mes : Z) (centros vendedores : list Cell) (r : Row)
  : bool :=
  eq_cell (row_get "Ano" r) (Int año) &&
  eq_cell (row_get "Mes" r) (Int mes) &&
  isin (row_get "Centro" r) centros &&
  isin (row_get "Vendedor" r) vendedores.

Definition coincidencias (df : DataFrame) (s : Seleccion) : DataFrame :=
  select (mascara (año_seleccionado s) (mes_seleccionado s)
                  (centros_seleccionados s) (vendedores_seleccionados s)) df.

Definition sin_datos : Event :=
  Warning "⚠️ No hay datos con los filtros seleccionados. Mostrando todos los datos.".

(** The block "Aplicar filtros": the value is [df_filtrado]. *)
Definition aplicar_filtros (df : DataFrame) (s : Seleccion) : Page DataFrame :=
  let df_filtrado := coincidencias df s in
  if empty df_filtrado then tell sin_datos ;;; ret df
  else ret df_filtrado.

(** ** Tab 1: summary and month-over-month comparison *)

Definition ventas_totales (df_filtrado : DataFrame) : Q :=
  sum (column "Monto Total" df_filtrado).

Definition pedidos_totales (df_filtrado : DataFrame) : Z :=
  nunique (column "Pedido" df_filtrado).

Definition ticket_promedio (df_filtrado : DataFrame) : Q :=
  if pedidos_totales df_filtrado >? 0
  then (ventas_totales df_filtrado / inject_Z (pedidos_totales df_filtrado))%Q
  else 0%Q.

Definition mes_anterior (s : Seleccion) : Z :=
  if mes_seleccionado s >? 1 then mes_seleccionado s - 1 else 12.

Definition año_mes_anterior (s : Seleccion) : Z :=
  if mes_seleccionado s >? 1 then año_seleccionado s
  else año_seleccionado s - 1.

(** Taken from the whole table [df], not from [df_filtrado]. *)
Definition df_mes_anterior (df : DataFrame) (s : Seleccion) : DataFrame :=
  select (mascara (año_mes_anterior s) (mes_anterior s)
                  (centros_seleccionados s) (vendedores_seleccionados s)) df.

Definition ventas_mes_anterior (df : DataFrame) (s : Seleccion) : Q :=
  sum (column "Monto Total" (df_mes_anterior df s)).

Definition variacion (df df_filtrado : DataFrame) (s : Seleccion) : Q :=
  if negb (Qeq_bool (ventas_mes_anterior df s) 0)
  then ((ventas_totales df_filtrado - ventas_mes_anterior df s)
        / ventas_mes_anterior df s * 100)%Q
  else 0%Q.

(** ** Tab 2: orders per salesperson *)

(** A floating-point result that may leave the finite numbers. *)
Inductive Float : Type :=
| Finite (q : Q)
| Inf
| NegInf
| NotANumber.

(** [a / b] on two integer series, element by element: dividing by zero
    does not raise, it gives an infinity, or NaN for 0/0. *)
Definition truediv (a b : Z) : Float :=
  if b =? 0 then
    if a =? 0 then NotANumber
    else if a >? 0 then Inf else NegInf
  else Finite (inject_Z a / inject_Z b)%Q.

(** [(x / objetivo) * 100] for a target of at least 1. *)
Definition porcentaje_de (x : Float) (objetivo : positive) : Float :=
  match x with
  | Finite q => Finite (q / inject_Z (Z.pos objetivo) * 100)%Q
  | other => other
  end.

(** [df.groupby(key)]: one group per distinct value of the key column,
    rows with a missing key left out.  Groups are listed by first
    appearance; the page orders them anew before showing them. *)
Definition groupby (key : string) (df : DataFrame) : list (Cell * list Row) :=
  map (fun k => (k, filter (fun r => same_cell k (row_get key r)) (rows df)))
      (unique (filter notna (column key df))).

(** One row of [pedidos_vendedor]. *)
Record PedidosVendedor : Type := mkPedidosVendedor {
  Vendedor : Cell;
  Pedido : Z;
  Dia : Z;
  Monto_Total : Q;
  Pedidos_Dia : Float;
  Cumplimiento : Float;
  Desviacion : Z
}.

Definition dias_habiles (df_filtrado : DataFrame) : Z :=
  nunique (column "Dia" df_filtrado).

Definition objetivo_mensual (objetivo : positive) (df_filtrado : DataFrame) : Z :=
  Z.pos objetivo * dias_habiles df_filtrado.

Definition pedidos_vendedor (objetivo : positive) (df_filtrado : DataFrame)
  : list PedidosVendedor :=
  map (fun g : Cell * list Row =>
         let (vendedor, grupo) := g in
         let pedido := nunique (map (row_get "Pedido") grupo) in
         let dia := nunique (map (row_get "Dia") grupo) in
         let por_dia := truediv pedido dia in
         {| Vendedor := vendedor;
            Pedido := pedido;
            Dia := dia;
            Monto_Total := sum (map (row_get "Monto Total") grupo);
            Pedidos_Dia := por_dia;
            Cumplimiento := porcentaje_de por_dia objetivo;
            Desviacion := pedido - objetivo_mensual objetivo df_filtrado |})
      (groupby "Vendedor" df_filtrado).

(** ** Enrichment row by row, and the log of a run of attempts *)

(** What [enriquecer] does to a single row. *)
Definition enriquecer_fila (r : Row) : Row :=
  let r := row_set "Mes" (dt (fun ns => Int (Calendar.month ns)) r) r in
  let r := row_set "Ano" (dt (fun ns => Int (Calendar.year ns)) r) r in
  let r := row_set "Dia" (dt (fun ns => Int (Calendar.day ns)) r) r in
  let r := row_set "Dia Semana" (dt (fun ns => Str (Calendar.day_name ns)) r) r in
  let r := row_set "Semana" (dt (fun ns => Int (Calendar.week ns)) r) r in
  let r := row_set "Hora" (dt (fun ns => Int (Calendar.hour ns)) r) r in
  let r := row_set "Dia Semana"
             (categorical dias_semana (row_get "Dia Semana" r)) r in
  row_set "Es Dia Habitl"
    (Bool (isin (row_get "Dia Semana" r) (map Str dias_habiles_semana))) r.

(** Every source of [urls], tried from index [i], ends in [continue]. *)
Fixpoint all_continue (W : World) (i : nat) (urls : list string) : Prop :=
  match urls with
  | [] => True
  | u :: rest => snd (attempt W i u) = Continue /\ all_continue W (S i) rest
  end.

(** What the attempts on [urls], numbered from [i], write on the page. *)
Fixpoint attempts_log (W : World) (i : nat) (urls : list string) : list Event :=
  match urls with
  | [] => []
  | u :: rest => fst (attempt W i u) ++ attempts_log W (S i) rest
  end.

(** ** Sample data *)

Module Ejemplo.

(** 2024-03-15T00:00 in nanoseconds since the epoch. *)
Definition marzo_15 : Z := 1710460800000000000.

Definition fila (vendedor : string) (fecha : Cell) (pedido : Z) (caja : Cell)
  : Row :=
  [ ("Vendedor", Str vendedor); ("Fecha Pedido", fecha);
    ("Nombre Cliente", Str "Colmado Luz"); ("Codigo Cliente", Int 31);
    ("Pedido", Int pedido); ("Codigo Producto", Int 7);
    ("Nombre Producto", Str "Agua 500ml"); ("Cantidad", Int 10);
    ("Precio", Num 50); ("Monto Total", Num 500); ("Caja", caja);
    ("Centro", Str "X") ].

(** One record dated 2024-03-15, amount 500, center X, salesperson A. *)
Definition un_registro : DataFrame :=
  {| columns := required_columns;
     rows := [ fila "A" (Date marzo_15) 1001 (Int 2) ] |}.

(** All twelve columns, but an empty [Caja] cell. *)
Definition con_celda_vacia : DataFrame :=
  {| columns := required_columns;
     rows := [ fila "A" (Date marzo_15) 1001 NaN ] |}.

(** A second line whose date cell is empty. *)
Definition con_fecha_vacia : DataFrame :=
  {| columns := required_columns;
     rows := [ fila "A" (Date marzo_15) 1001 (Int 2);
               fila "B" NaN 1002 (Int 1) ] |}.

(** A sheet without the [Caja] and [Centro] columns. *)
Definition sin_caja_ni_centro : DataFrame :=
  {| columns := [ "Vendedor"; "Fecha Pedido"; "Nombre Cliente";
                  "Codigo Cliente"; "Pedido"; "Codigo Producto";
                  "Nombre Producto"; "Cantidad"; "Precio"; "Monto Total" ];
     rows := [] |}.

Definition marzo_2024 : Seleccion := mkSeleccion 2024 3 [Str "X"] [Str "A"].
Definition abril_2024 : Seleccion := mkSeleccion 2024 4 [Str "X"] [Str "A"].
Definition enero_2024 : Seleccion := mkSeleccion 2024 1 [Str "X"] [Str "A"].
Definition sin_centros : Seleccion := mkSeleccion 2024 3 [] [Str "A"; Str "B"].

Definition xlsx : list Byte.byte := [ Byte.x50; Byte.x4b; Byte.x03; Byte.x04 ].

(** Both sources serve a good file. *)
Definition mundo_bueno (df : DataFrame) : World :=
  {| gdown_download := fun _ => Ok xlsx;
     requests_get := fun _ => Ok xlsx;
     read_excel := fun _ => Ok df |}.

(** The first source leaves a zero-byte file, the second a good one. *)
Definition mundo_primera_vacia (df : DataFrame) : World :=
  {| gdown_download := fun _ => Ok [];
     requests_get := fun _ => Ok xlsx;
     read_excel := fun _ => Ok df |}.

(** No source answers. *)
Definition mundo_caido : World :=
  {| gdown_download := fun _ => Raised "Connection refused";
     requests_get := fun _ => Raised "Connection refused";
     read_excel := fun _ => Raised "File is not a zip file" |}.

End Ejemplo.

(** ** The rest of tab 1 *)

Definition cajas_totales (df_filtrado : DataFrame) : Q :=
  sum (column "Caja" df_filtrado).

Definition clientes_unicos (df_filtrado : DataFrame) : Z :=
  nunique (column "Codigo Cliente" df_filtrado).

(** [groupby('Vendedor').agg({...}).reset_index()]: the rows of
    [ventas_vendedor] before [sort_values] puts them in display order. *)
Definition ventas_vendedor (df_filtrado : DataFrame) : DataFrame :=
  {| columns := [ "Vendedor"; "Monto Total"; "Pedido"; "Caja" ];
     rows :=
       map (fun g : Cell * list Row =>
              let (vendedor, grupo) := g in
              [ ("Vendedor", vendedor);
                ("Monto Total", Num (sum (map (row_get "Monto Total") grupo)));
                ("Pedido", Int (nunique (map (row_get "Pedido") grupo)));
                ("Caja", Num (sum (map (row_get "Caja") grupo))) ])
           (groupby "Vendedor" df_filtrado) |}.

(** [groupby('Centro').agg({...}).reset_index()], before [sort_values]. *)
Definition ventas_centro (df_filtrado : DataFrame) : DataFrame :=
  {| columns := [ "Centro"; "Monto Total"; "Caja" ];
     rows :=
       map (fun g : Cell * list Row =>
              let (centro, grupo) := g in
              [ ("Centro", centro);
                ("Monto Total", Num (sum (map (row_get "Monto Total") grupo)));
                ("Caja", Num (sum (map (row_get "Caja") grupo))) ])
           (groupby "Centro" df_filtrado) |}.

(** ** The sidebar defaults *)

(** The integers of a series, when it holds nothing else. *)
Fixpoint ints (cs : list Cell) : option (list Z) :=
  match cs with
  | [] => Some []
  | Int z :: cs' => option_map (cons z) (ints cs')
  | _ :: _ => None
  end.

Fixpoint insert_sorted (z : Z) (l : list Z) : list Z :=
  match l with
  | [] => [z]
  | y :: l' => if z <=? y then z :: l else y :: insert_sorted z l'
  end.

(** [sorted(values)] on integers. *)
Definition sorted (l : list Z) : list Z := fold_right insert_sorted [] l.

(** The option a [selectbox] shows first with [index=len(options)-1]. *)
Definition last_option (options : list Z) : option Z :=
  match options with
  | [] => None
  | z :: _ => Some (last options z)
  end.

(** [sorted(series.unique())] for a series of integers.  [None]: the series
    holds something else (a missing year or month, for a line without a
    date); the order [sorted] leaves then is not modelled. *)
Definition opciones (cs : list Cell) : option (list Z) :=
  option_map sorted (ints (unique cs)).

Definition años_disponibles (df : DataFrame) : option (list Z) :=
  opciones (column "Ano" df).

Definition meses_disponibles (df : DataFrame) (año : Z) : option (list Z) :=
  opciones (column "Mes" (select (fun r => eq_cell (row_get "Ano" r) (Int año)) df)).

Definition centros_disponibles (df : DataFrame) : list Cell :=
  unique (column "Centro" df).

Definition vendedores_disponibles (df : DataFrame) : list Cell :=
  unique (column "Vendedor" df).

(** The selection the sidebar starts with: the last year, the last month
    of that year, every center and every salesperson.  [None] when a list
    of options is empty or not modelled. *)
Definition seleccion_por_defecto (df : DataFrame) : option Seleccion :=
  match años_disponibles df with
  | None => None
  | Some años =>
      match last_option años with
      | None => None
      | Some año =>
          match meses_disponibles df año with
          | None => None
          | Some meses =>
              match last_option meses with
              | None => None
              | Some mes =>
                  Some (mkSeleccion año mes (centros_disponibles df)
                                    (vendedores_disponibles df))
              end
          end
      end
  end.

(** ** From the load to the tabs *)

Definition columnas_derivadas : list string :=
  [ "Mes"; "Ano"; "Dia"; "Dia Semana"; "Semana"; "Hora"; "Es Dia Habitl" ].

(** The script from [load_data()] to the end of the enrichment block, on
    a cache and a clock.  [None] is [st.stop()]. *)
Definition cargar_y_procesar (cache : Cache) (now : Z) (W : World)
  : Cache * Page (option DataFrame) :=
  let (cache', loaded) := load_data_cached cache now W in
  (cache',
   df <- loaded ;;
   valid <- validar df ;;
   match valid with
   | None => ret None
   | Some df => procesamiento df
   end).

(** The sidebar button: [st.cache_data.clear()]. *)
Definition clear (cache : Cache) : Cache := None.

(** The entries [load_data_cached] can leave in the cache. *)
Definition cache_written (cache : Cache) : Prop :=
  match cache with
  | None => True
  | Some (_, v) => exists W : World, v = load_data W
  end.

(** ** Auxiliary notions for the aggregates *)

(** Two values that [unique] keeps apart. *)
Definition differ (a b : Cell) : Prop := same_cell a b = false.

(** What a cell adds to [sum]. *)
Definition valor (c : Cell) : Q :=
  match num_of c with Some q => q | None => 0%Q end.

(** ** More sample data *)

Module Muestra.

(** 2024-02-15T00:00 in nanoseconds since the epoch. *)
Definition febrero_15 : Z := 1707955200000000000.

(** A sale in February and two in March 2024. *)
Definition dos_meses : DataFrame :=
  {| columns := required_columns;
     rows := [ Ejemplo.fila "A" (Date febrero_15) 1000 (Int 1);
               Ejemplo.fila "A" (Date Ejemplo.marzo_15) 1001 (Int 2);
               Ejemplo.fila "B" (Date Ejemplo.marzo_15) 1002 (Int 2) ] |}.

Definition marzo_todos : Seleccion :=
  mkSeleccion 2024 3 [Str "X"] [Str "A"; Str "B"].

(** The first source is unreachable, the second serves a file that is no
    spreadsheet. *)
Definition mundo_roto : World :=
  {| gdown_download := fun _ => Raised "Connection refused";
     requests_get := fun _ => Ok Ejemplo.xlsx;
     read_excel := fun _ => Raised "File is not a zip file" |}.

End Muestra.

(** ** Grouping by several columns or by a computed key *)

Section Agrupar.

Context {K : Type}.
Variable same : K -> K -> bool.

(** First occurrences, under an identity of keys. *)
Fixpoint unique_by (ks : list K) : list K :=
  match ks with
  | [] => []
  | k :: ks' => k :: filter (fun d => negb (same k d)) (unique_by ks')
  end.

(** One group per distinct key among the rows whose key is present. *)
Definition group_by (key : Row -> K) (present : K -> bool) (l : list Row)
  : list (K * list Row) :=
  map (fun k => (k, filter (fun r => same k (key r)) l))
      (unique_by (filter present (map key l))).

End Agrupar.

(** Tuples of key values, compared position by position. *)
Fixpoint same_keys (a b : list Cell) : bool :=
  match a, b with
  | [], [] => true
  | x :: a', y :: b' => same_cell x y && same_keys a' b'
  | _, _ => false
  end.

Definition row_key (keys : list string) (r : Row) : list Cell :=
  map (fun k => row_get k r) keys.

(** [df.groupby([k1, k2, ...])]: rows with a missing value in any key
    column are left out.  Groups are listed by first appearance. *)
Definition groupby_cols (keys : list string) (df : DataFrame)
  : list (list Cell * list Row) :=
  group_by same_keys (row_key keys) (forallb notna) (rows df).

(** [df.groupby(series)] for a key computed from each row. *)
Definition groupby_key (key : Row -> Cell) (df : DataFrame)
  : list (Cell * list Row) :=
  group_by same_cell key notna (rows df).

(** The timestamps of a series. *)
Fixpoint fechas (cs : list Cell) : list Z :=
  match cs with
  | [] => []
  | Date ns :: cs' => ns :: fechas cs'
  | _ :: cs' => fechas cs'
  end.

(** ['min'] and ['max'] on a datetime series: missing values are skipped,
    and the result is missing when there is nothing else. *)
Definition serie_min (cs : list Cell) : Cell :=
  match fechas cs with
  | [] => NaN
  | d :: ds => Date (fold_right Z.min d ds)
  end.

Definition serie_max (cs : list Cell) : Cell :=
  match fechas cs with
  | [] => NaN
  | d :: ds => Date (fold_right Z.max d ds)
  end.

(** ** Column names after an aggregation with several functions *)

(** The one-byte whitespace characters. *)
Definition is_space (c : ascii) : bool :=
  let n := nat_of_ascii c in
  ((9 <=? n) && (n <=? 13) || (28 <=? n) && (n <=? 32))%nat.

Fixpoint lstrip (s : string) : string :=
  match s with
  | EmptyString => EmptyString
  | String c s' => if is_space c then lstrip s' else s
  end.

Fixpoint rstrip (s : string) : string :=
  match s with
  | EmptyString => EmptyString
  | String c s' =>
      match rstrip s' with
      | EmptyString => if is_space c then EmptyString else String c EmptyString
      | t => String c t
      end
  end.

(** [s.strip()] *)
Definition strip (s : string) : string := rstrip (lstrip s).

(** [[' '.join(col).strip() for col in columns.values]] on the two-level
    column labels that [agg] leaves. *)
Definition aplanar (cols : list (string * string)) : list string :=
  map (fun col => strip (String.concat " " [fst col; snd col])) cols.

(** ** Tab 3: sales by customer *)

(** The customers offered, and the three preselected. *)
Definition clientes_disponibles (df_filtrado : DataFrame) : list Cell :=
  unique (column "Nombre Cliente" df_filtrado).

Definition clientes_por_defecto (df_filtrado : DataFrame) : list Cell :=
  firstn 3 (clientes_disponibles df_filtrado).

(** Up to [df_clientes]: without a customer the tab warns and the script
    stops ([None]). *)
Definition df_clientes (df_filtrado : DataFrame)
    (clientes_seleccionados : list Cell) : Page (option DataFrame) :=
  match clientes_seleccionados with
  | [] =>
      tell (Warning "⚠️ Por favor seleccione al menos un cliente.") ;;;
      ret None
  | _ =>
      ret (Some (select (fun r => isin (row_get "Nombre Cliente" r)
                                       clientes_seleccionados)
                        df_filtrado))
  end.

Definition columnas_resumen_clientes : list string :=
  aplanar [ ("Codigo Cliente", ""); ("Nombre Cliente", "");
            ("Pedido", "nunique"); ("Monto Total", "sum"); ("Caja", "sum");
            ("Fecha Pedido", "min"); ("Fecha Pedido", "max") ].

(** [resumen_clientes], with its flattened column names, before the
    display order. *)
Definition resumen_clientes (df_clientes : DataFrame) : DataFrame :=
  {| columns := columnas_resumen_clientes;
     rows :=
       map (fun g : list Cell * list Row =>
              let (claves, grupo) := g in
              combine columnas_resumen_clientes
                (claves ++
                 [ Int (nunique (map (row_get "Pedido") grupo));
                   Num (sum (map (row_get "Monto Total") grupo));
                   Num (sum (map (row_get "Caja") grupo));
                   serie_min (map (row_get "Fecha Pedido") grupo);
                   serie_max (map (row_get "Fecha Pedido") grupo) ]))
           (groupby_cols ["Codigo Cliente"; "Nombre Cliente"] df_clientes) |}.

(** The customer of the detail part: one of the names in [df_clientes]. *)
Definition df_cliente (df_clientes : DataFrame) (cliente_seleccionado : Cell)
  : DataFrame :=
  select (fun r => eq_cell (row_get "Nombre Cliente" r) cliente_seleccionado)
         df_clientes.

(** [productos_cliente], before [sort_values]. *)
Definition productos_cliente (df_cliente : DataFrame) : DataFrame :=
  {| columns := [ "Codigo Producto"; "Nombre Producto"; "Cantidad";
                  "Monto Total"; "Caja"; "Pedido" ];
     rows :=
       map (fun g : list Cell * list Row =>
              let (claves, grupo) := g in
              combine [ "Codigo Producto"; "Nombre Producto"; "Cantidad";
                        "Monto Total"; "Caja"; "Pedido" ]
                (claves ++
                 [ Num (sum (map (row_get "Cantidad") grupo));
                   Num (sum (map (row_get "Monto Total") grupo));
                   Num (sum (map (row_get "Caja") grupo));
                   Int (nunique (map (row_get "Pedido") grupo)) ]))
           (groupby_cols ["Codigo Producto"; "Nombre Producto"] df_cliente) |}.

(** [.dt.date]: the day of a timestamp, kept as its midnight. *)
Definition dt_date (r : Row) : Cell :=
  dt (fun ns => Date (Calendar.days ns * Calendar.NS_PER_DAY)) r.

(** [evolucion]: sales and orders of the customer per calendar day. *)
Definition evolucion (df_cliente : DataFrame) : DataFrame :=
  {| columns := [ "Fecha Pedido"; "Monto Total"; "Pedido" ];
     rows :=
       map (fun g : Cell * list Row =>
              let (fecha, grupo) := g in
              [ ("Fecha Pedido", fecha);
                ("Monto Total", Num (sum (map (row_get "Monto Total") grupo)));
                ("Pedido", Int (nunique (map (row_get "Pedido") grupo))) ])
           (groupby_key dt_date df_cliente) |}.

(** ** Tab 4: product search *)

(** The products offered come from the whole table [df], not from
    [df_filtrado]; two are preselected. *)
Definition productos_disponibles (df : DataFrame) : list Cell :=
  unique (column "Nombre Producto" df).

Definition productos_por_defecto (df : DataFrame) : list Cell :=
  firstn 2 (productos_disponibles df).

(** Up to [df_productos]: without a product the tab shows a notice and the
    script stops ([None]). *)
Definition df_productos (df : DataFrame) (productos_buscar : list Cell)
  : option DataFrame :=
  match productos_buscar with
  | [] => None
  | _ =>
      Some (select (fun r => isin (row_get "Nombre Producto" r) productos_buscar)
                   df)
  end.

Definition columnas_resumen_productos : list string :=
  aplanar [ ("Codigo Producto", ""); ("Nombre Producto", "");
            ("Pedido", "nunique"); ("Cantidad", "sum"); ("Monto Total", "sum");
            ("Caja", "sum"); ("Nombre Cliente", "nunique");
            ("Fecha Pedido", "min"); ("Fecha Pedido", "max") ].

Definition resumen_productos (df_productos : DataFrame) : DataFrame :=
  {| columns := columnas_resumen_productos;
     rows :=
       map (fun g : list Cell * list Row =>
              let (claves, grupo) := g in
              combine columnas_resumen_productos
                (claves ++
                 [ Int (nunique (map (row_get "Pedido") grupo));
                   Num (sum (map (row_get "Cantidad") grupo));
                   Num (sum (map (row_get "Monto Total") grupo));
                   Num (sum (map (row_get "Caja") grupo));
                   Int (nunique (map (row_get "Nombre Cliente") grupo));
                   serie_min (map (row_get "Fecha Pedido") grupo);
                   serie_max (map (row_get "Fecha Pedido") grupo) ]))
           (groupby_cols ["Codigo Producto"; "Nombre Producto"] df_productos) |}.

(** The product of the detail part is one of [productos_buscar]. *)
Definition df_producto (df_productos : DataFrame) (producto_seleccionado : Cell)
  : DataFrame :=
  select (fun r => eq_cell (row_get "Nombre Producto" r) producto_seleccionado)
         df_productos.

(** [clientes_producto], before [sort_values]. *)
Definition clientes_producto (df_producto : DataFrame) : DataFrame :=
  {| columns := [ "Codigo Cliente"; "Nombre Cliente"; "Pedido"; "Cantidad";
                  "Monto Total"; "Caja"; "Fecha Pedido" ];
     rows :=
       map (fun g : list Cell * list Row =>
              let (claves, grupo) := g in
              combine [ "Codigo Cliente"; "Nombre Cliente"; "Pedido";
                        "Cantidad"; "Monto Total"; "Caja"; "Fecha Pedido" ]
                (claves ++
                 [ Int (nunique (map (row_get "Pedido") grupo));
                   Num (sum (map (row_get "Cantidad") grupo));
                   Num (sum (map (row_get "Monto Total") grupo));
                   Num (sum (map (row_get "Caja") grupo));
                   serie_max (map (row_get "Fecha Pedido") grupo) ]))
           (groupby_cols ["Codigo Cliente"; "Nombre Cliente"] df_producto) |}.

(** [.dt.to_period('M')] followed by [.dt.to_timestamp()]: the first
    midnight of the month of a timestamp. *)
Definition dt_mes (r : Row) : Cell :=
  dt (fun ns =>
        Date (Calendar.days_from_civil (Calendar.year ns) (Calendar.month ns) 1
              * Calendar.NS_PER_DAY)) r.

(** [evolucion_producto]: sales, orders and quantity per month. *)
Definition evolucion_producto (df_producto : DataFrame) : DataFrame :=
  {| columns := [ "Fecha Pedido"; "Monto Total"; "Pedido"; "Cantidad" ];
     rows :=
       map (fun g : Cell * list Row =>
              let (mes, grupo) := g in
              [ ("Fecha Pedido", mes);
                ("Monto Total", Num (sum (map (row_get "Monto Total") grupo)));
                ("Pedido", Int (nunique (map (row_get "Pedido") grupo)));
                ("Cantidad", Num (sum (map (row_get "Cantidad") grupo))) ])
           (groupby_key dt_mes df_producto) |}.

(** ** The dates of the sidebar footer *)

Definition dos_digitos (n : Z) : string :=
  if n <? 10 then ("0" ++ show (Z.to_nat n))%string else show (Z.to_nat n).

(** [strftime('%d/%m/%Y')] for a year of four digits. *)
Definition strftime_dmy (ns : Z) : string :=
  (dos_digitos (Calendar.day ns) ++ "/" ++ dos_digitos (Calendar.month ns)
   ++ "/" ++ show (Z.to_nat (Calendar.year ns)))%string.

(** The two globals set at the end of the enrichment block.  [None]: the
    column has no date and [strftime] raises. *)
Definition fecha_min (df : DataFrame) : option string :=
  match serie_min (column "Fecha Pedido" df) with
  | Date a => Some (strftime_dmy a)
  | _ => None
  end.

Definition fecha_max (df : DataFrame) : option string :=
  match serie_max (column "Fecha Pedido" df) with
  | Date b => Some (strftime_dmy b)
  | _ => None
  end.

(** * Properties *)

(** ** Rows and cells *)

Lemma row_get_set_same (c : string) (v : Cell) (r : Row) :
  row_get c (row_set c v r) = v.
Proof.
  induction r as [|[k w] r IH]; simpl.
  - now rewrite String.eqb_refl.
  - destruct (String.eqb k c) eqn:E; simpl; rewrite E; auto.
Qed.

Lemma row_get_set_other (c c' : string) (v : Cell) (r : Row) :
  String.eqb c' c = false -> row_get c (row_set c' v r) = row_get c r.
Proof.
  intros Hne. induction r as [|[k w] r IH]; simpl.
  - now rewrite Hne.
  - destruct (String.eqb k c') eqn:E; simpl.
    + apply String.eqb_eq in E. subst k. now rewrite Hne.
    + now rewrite IH.
Qed.

Lemma dt_set_other (f : Z -> Cell) (c : string) (v : Cell) (r : Row) :
  String.eqb c "Fecha Pedido" = false -> dt f (row_set c v r) = dt f r.
Proof. intros H. unfold dt. now rewrite row_get_set_other. Qed.

(** Rewrites a lookup through the updates of other columns. *)
Ltac row_lookup :=
  repeat first
    [ rewrite row_get_set_same
    | rewrite row_get_set_other by reflexivity
    | rewrite dt_set_other by reflexivity ].

Lemma same_cell_Str (c : Cell) (s : string) :
  same_cell c (Str s) = true <-> c = Str s.
Proof.
  destruct c; simpl; split; intros H; try discriminate.
  - apply String.eqb_eq in H. now subst.
  - injection H as ->. apply String.eqb_refl.
Qed.

Lemma isin_Str (c : Cell) (names : list string) :
  isin c (map Str names) = true <-> In c (map Str names).
Proof.
  unfold isin. rewrite existsb_exists. split.
  - intros [x [Hin Hx]]. apply in_map_iff in Hin as [s [<- Hs]].
    apply same_cell_Str in Hx. subst c. now apply in_map.
  - intros Hin. exists c. split; [assumption|].
    apply in_map_iff in Hin as [s [<- _]]. now apply same_cell_Str.
Qed.

Lemma eq_cell_Int (c : Cell) (z : Z) :
  (c = NaN \/ exists y, c = Int y) ->
  (eq_cell c (Int z) = true <-> c = Int z).
Proof.
  intros [->|[y ->]]; simpl.
  - split; discriminate.
  - unfold Qeq_bool, inject_Z; simpl. rewrite !Z.mul_1_r. split.
    + intros H. apply Z.eqb_eq in H. now subst.
    + intros H. injection H as ->. apply Z.eqb_refl.
Qed.

(** ** Enrichment *)

Lemma rows_enriquecer (df : DataFrame) :
  rows (enriquecer df) = map enriquecer_fila (rows df).
Proof.
  unfold enriquecer, assign; simpl. rewrite !map_map. reflexivity.
Qed.

Lemma dt_cases (f : Z -> Cell) (r : Row) :
  (exists ns, row_get "Fecha Pedido" r = Date ns /\ dt f r = f ns) \/
  ((forall ns, row_get "Fecha Pedido" r <> Date ns) /\ dt f r = NaN).
Proof.
  unfold dt. destruct (row_get "Fecha Pedido" r) eqn:E;
    try (right; split; [intros ns' H; discriminate | reflexivity]).
  left. eauto.
Qed.

Lemma enriquecer_fila_Ano (r : Row) :
  row_get "Ano" (enriquecer_fila r) = dt (fun ns => Int (Calendar.year ns)) r.
Proof. unfold enriquecer_fila. row_lookup. reflexivity. Qed.

Lemma enriquecer_fila_Mes (r : Row) :
  row_get "Mes" (enriquecer_fila r) = dt (fun ns => Int (Calendar.month ns)) r.
Proof. unfold enriquecer_fila. row_lookup. reflexivity. Qed.

Lemma enriquecer_fila_Dia_Semana (r : Row) :
  row_get "Dia Semana" (enriquecer_fila r) =
  categorical dias_semana (dt (fun ns => Str (Calendar.day_name ns)) r).
Proof. unfold enriquecer_fila. row_lookup. reflexivity. Qed.

Lemma enriquecer_fila_Es_Dia_Habitl (r : Row) :
  row_get "Es Dia Habitl" (enriquecer_fila r) =
  Bool (isin (row_get "Dia Semana" (enriquecer_fila r))
             (map Str dias_habiles_semana)).
Proof.
  rewrite enriquecer_fila_Dia_Semana. unfold enriquecer_fila. row_lookup.
  reflexivity.
Qed.

Lemma int_or_missing (f : Z -> Z) (r : Row) :
  let c := dt (fun ns => Int (f ns)) r in c = NaN \/ exists y, c = Int y.
Proof.
  simpl. destruct (dt_cases (fun ns => Int (f ns)) r) as [[ns [_ ->]]|[_ ->]];
    eauto.
Qed.

(** ** The filter *)

Lemma filter_twice {A : Type} (f : A -> bool) (l : list A) :
  filter f (filter f l) = filter f l.
Proof.
  induction l as [|a l IH]; simpl; [reflexivity|].
  destruct (f a) eqn:E; simpl; [rewrite E, IH|]; auto.
Qed.

Lemma coincidencias_twice (df : DataFrame) (s : Seleccion) :
  coincidencias (coincidencias df s) s = coincidencias df s.
Proof.
  unfold coincidencias, select; simpl. now rewrite filter_twice.
Qed.

Lemma aplicar_filtros_cases (df : DataFrame) (s : Seleccion) :
  (rows (coincidencias df s) = [] /\ aplicar_filtros df s = ([sin_datos], df)) \/
  (rows (coincidencias df s) <> [] /\
   aplicar_filtros df s = ([], coincidencias df s)).
Proof.
  unfold aplicar_filtros, empty.
  destruct (rows (coincidencias df s)) eqn:E; [left|right]; split;
    try reflexivity; discriminate.
Qed.

(** C1.  Whatever the table and the selection: when no row passes the four
    conditions, [df_filtrado] is the whole table and the page shows the
    warning; when some row passes, [df_filtrado] is the matching subset and
    nothing is shown. *)
Theorem empty_filter_falls_back (df : DataFrame) (s : Seleccion) :
  (rows (coincidencias df s) = [] ->
   aplicar_filtros df s = ([sin_datos], df)) /\
  (rows (coincidencias df s) <> [] ->
   aplicar_filtros df s = ([], coincidencias df s)).
Proof.
  destruct (aplicar_filtros_cases df s) as [[He ->]|[Hne ->]]; split;
    intros H; try reflexivity; contradiction.
Qed.

Lemma empty_filter_falls_back_witness :
  aplicar_filtros (enriquecer Ejemplo.un_registro) Ejemplo.abril_2024
    = ([sin_datos], enriquecer Ejemplo.un_registro) /\
  aplicar_filtros (enriquecer Ejemplo.un_registro) Ejemplo.marzo_2024
    = ([], coincidencias (enriquecer Ejemplo.un_registro) Ejemplo.marzo_2024).
Proof.
  split.
  - apply (proj1 (empty_filter_falls_back _ _)). reflexivity.
  - apply (proj2 (empty_filter_falls_back _ _)). vm_compute. discriminate.
Defined.

Lemma mascara_enriched (año mes : Z) (centros vendedores : list Cell) (r : Row) :
  mascara año mes centros vendedores (enriquecer_fila r) = true <->
  row_get "Ano" (enriquecer_fila r) = Int año /\
  row_get "Mes" (enriquecer_fila r) = Int mes /\
  isin (row_get "Centro" (enriquecer_fila r)) centros = true /\
  isin (row_get "Vendedor" (enriquecer_fila r)) vendedores = true.
Proof.
  unfold mascara. rewrite !andb_true_iff.
  rewrite (eq_cell_Int (row_get "Ano" (enriquecer_fila r)))
    by (rewrite enriquecer_fila_Ano; apply int_or_missing).
  rewrite (eq_cell_Int (row_get "Mes" (enriquecer_fila r)))
    by (rewrite enriquecer_fila_Mes; apply int_or_missing).
  tauto.
Qed.



(** C6.  Filtering the result of the filter again, with the same selection,
    gives the same table, whether the first pass kept a subset or fell back
    to the whole table. *)
Theorem filter_idempotent (df : DataFrame) (s : Seleccion) :
  snd (aplicar_filtros (snd (aplicar_filtros df s)) s) =
  snd (aplicar_filtros df s).
Proof.
  destruct (aplicar_filtros_cases df s) as [[He E]|[Hne E]]; rewrite E; simpl.
  - now rewrite E.
  - destruct (aplicar_filtros_cases (coincidencias df s) s) as [[He' E']|[_ E']];
      rewrite E'; simpl.
    + reflexivity.
    + apply coincidencias_twice.
Qed.

(** ** Weekdays and business days *)

Lemma day_name_in_week (ns : Z) : In (Calendar.day_name ns) dias_semana.
Proof.
  unfold Calendar.day_name, Calendar.weekday.
  pose proof (Z.mod_pos_bound (Calendar.days ns + 3) 7 ltac:(lia)) as Hb.
  set (x := (Calendar.days ns + 3) mod 7) in *.
  assert (x = 0 \/ x = 1 \/ x = 2 \/ x = 3 \/ x = 4 \/ x = 5 \/ x = 6)
    as Hx by lia.
  repeat (destruct Hx as [-> | Hx]; [simpl; tauto|]).
  subst x. rewrite Hx. simpl; tauto.
Qed.

(** A dated row gets its day name, and is a business day unless that name
    is Sunday. *)
Lemma dated_row_weekday (r : Row) (ns : Z) :
  row_get "Fecha Pedido" r = Date ns ->
  exists name : string,
    In name dias_semana /\
    row_get "Dia Semana" (enriquecer_fila r) = Str name /\
    row_get "Es Dia Habitl" (enriquecer_fila r)
      = Bool (negb (String.eqb name "Sunday")).
Proof.
  intros Hd. exists (Calendar.day_name ns).
  pose proof (day_name_in_week ns) as Hin. split; [assumption|].
  rewrite enriquecer_fila_Es_Dia_Habitl, enriquecer_fila_Dia_Semana.
  unfold dt. rewrite Hd.
  simpl in Hin.
  repeat (destruct Hin as [<- | Hin]; [split; reflexivity|]).
  contradiction.
Qed.




(** ** Month-over-month comparison *)

(** C10.  The comparison period is the month before the selected one in the
    selected year, and December of the year before when the selected month
    is January; the centers and salespeople stay those of the selection and
    the rows come from the whole table.  When the sales of that period add
    up to zero the variation is 0 and nothing is divided. *)
Theorem previous_month_comparison (df df_filtrado : DataFrame) (s : Seleccion) :
  (1 < mes_seleccionado s ->
   mes_anterior s = mes_seleccionado s - 1 /\
   año_mes_anterior s = año_seleccionado s /\
   df_mes_anterior df s =
     coincidencias df
       (mkSeleccion (año_seleccionado s) (mes_seleccionado s - 1)
                    (centros_seleccionados s) (vendedores_seleccionados s))) /\
  (mes_seleccionado s = 1 ->
   mes_anterior s = 12 /\
   año_mes_anterior s = año_seleccionado s - 1 /\
   df_mes_anterior df s =
     coincidencias df
       (mkSeleccion (año_seleccionado s - 1) 12
                    (centros_seleccionados s) (vendedores_seleccionados s))) /\
  ((ventas_mes_anterior df s == 0)%Q -> variacion df df_filtrado s = 0%Q).
Proof.
  unfold df_mes_anterior, coincidencias, mes_anterior, año_mes_anterior.
  cbn [año_seleccionado mes_seleccionado centros_seleccionados
       vendedores_seleccionados].
  split; [|split].
  - intros H. destruct (mes_seleccionado s >? 1) eqn:E.
    + repeat split.
    + rewrite Z.gtb_ltb in E. apply Z.ltb_ge in E. lia.
  - intros H. rewrite H. simpl. repeat split.
  - intros H. unfold variacion. apply Qeq_bool_iff in H. now rewrite H.
Qed.

Lemma previous_month_comparison_witness :
  (mes_anterior Ejemplo.marzo_2024 = 2 /\
   año_mes_anterior Ejemplo.marzo_2024 = 2024) /\
  (mes_anterior Ejemplo.enero_2024 = 12 /\
   año_mes_anterior Ejemplo.enero_2024 = 2023) /\
  variacion (enriquecer Ejemplo.un_registro) (enriquecer Ejemplo.un_registro)
            Ejemplo.marzo_2024 = 0%Q.
Proof.
  pose proof (previous_month_comparison (enriquecer Ejemplo.un_registro)
                (enriquecer Ejemplo.un_registro) Ejemplo.marzo_2024)
    as [Hm [_ Hv]].
  pose proof (previous_month_comparison (enriquecer Ejemplo.un_registro)
                (enriquecer Ejemplo.un_registro) Ejemplo.enero_2024)
    as [_ [Hj _]].
  split; [|split].
  - destruct Hm as [H1 [H2 _]]; [reflexivity|]. split; assumption.
  - destruct Hj as [H1 [H2 _]]; [reflexivity|]. split; assumption.
  - apply Hv. reflexivity.
Defined.

(** ** Orders per day *)

Lemma pedidos_vendedor_ratio (objetivo : positive) (df : DataFrame)
    (pv : PedidosVendedor) :
  In pv (pedidos_vendedor objetivo df) ->
  Pedidos_Dia pv = truediv (Pedido pv) (Dia pv).
Proof.
  unfold pedidos_vendedor. intros H.
  apply in_map_iff in H as [[k g] [<- _]]. reflexivity.
Qed.

Lemma truediv_by_zero (a : Z) (q : Q) : truediv a 0 <> Finite q.
Proof.
  unfold truediv; simpl. destruct (a =? 0); [discriminate|].
  destruct (a >? 0); discriminate.
Qed.

(** No row of [pedidos_vendedor] with zero distinct days has a finite
    orders-per-day value, 0 included. *)
Lemma pedidos_vendedor_zero_days (objetivo : positive) (df : DataFrame)
    (pv : PedidosVendedor) :
  In pv (pedidos_vendedor objetivo df) -> Dia pv = 0 ->
  forall q : Q, Pedidos_Dia pv <> Finite q.
Proof.
  intros Hin Hz q. rewrite (pedidos_vendedor_ratio _ _ _ Hin), Hz.
  apply truediv_by_zero.
Qed.

(** The average ticket of tab 1 does test its denominator. *)
Lemma ticket_promedio_guarded (df_filtrado : DataFrame) :
  pedidos_totales df_filtrado = 0 -> ticket_promedio df_filtrado = 0%Q.
Proof. intros H. unfold ticket_promedio. now rewrite H. Qed.

(** C2.  A sheet with an empty date cell on salesperson B's only line,
    shown with no center selected: the table passes loading and enrichment,
    the filter matches nothing and falls back to the whole table, and in
    [pedidos_vendedor] B has one order over zero distinct days.  The
    orders-per-day value of that row is infinite, not 0. *)
Theorem orders_per_day_zero_days :
  procesamiento Ejemplo.con_fecha_vacia
    = ([], Some (enriquecer Ejemplo.con_fecha_vacia)) /\
  aplicar_filtros (enriquecer Ejemplo.con_fecha_vacia) Ejemplo.sin_centros
    = ([sin_datos], enriquecer Ejemplo.con_fecha_vacia) /\
  map (fun pv => (Vendedor pv, Pedido pv, Dia pv, Pedidos_Dia pv))
      (pedidos_vendedor 45 (enriquecer Ejemplo.con_fecha_vacia))
    = [ (Str "A", 1, 1, Finite 1); (Str "B", 1, 0, Inf) ].
Proof. repeat split. Qed.

(** ** Loading *)

Lemma fst_bind {A B : Type} (m : Page A) (k : A -> Page B) :
  fst (bind m k) = fst m ++ fst (k (snd m)).
Proof. unfold bind. destruct m as [l a]. simpl. now destruct (k a). Qed.

Lemma snd_bind {A B : Type} (m : Page A) (k : A -> Page B) :
  snd (bind m k) = snd (k (snd m)).
Proof. unfold bind. destruct m as [l a]. simpl. now destruct (k a). Qed.

Lemma missing_nil (df : DataFrame) :
  missing df = [] <->
  forallb (fun col => has_column col (columns df)) required_columns = true.
Proof.
  unfold missing. induction required_columns as [|c l IH]; simpl.
  - tauto.
  - destruct (has_column c (columns df)); simpl; [exact IH|].
    split; discriminate.
Qed.

Lemma has_column_In (c : string) (cols : list string) :
  has_column c cols = true <-> In c cols.
Proof.
  unfold has_column. rewrite existsb_exists. split.
  - intros [x [Hin Hx]]. apply String.eqb_eq in Hx. now subst.
  - intros Hin. exists c. split; [assumption|apply String.eqb_refl].
Qed.

Lemma missing_spec (df : DataFrame) (c : string) :
  In c (missing df) <-> In c required_columns /\ ~ In c (columns df).
Proof.
  unfold missing. rewrite filter_In, negb_true_iff.
  pose proof (has_column_In c (columns df)) as H.
  destruct (has_column c (columns df)).
  - split; [intros [_ E]; discriminate|].
    intros [_ Hn]. exfalso. apply Hn, H. reflexivity.
  - split; intros [Hin _]; (split; [assumption|]); [|reflexivity].
    intros Hc. apply H in Hc. discriminate.
Qed.

(** The one way a turn of the loop reaches [return df]. *)
Lemma attempt_return (W : World) (i : nat) (url : string) (df : DataFrame) :
  snd (attempt W i url) = Return df <->
  exists bytes : list Byte.byte,
    download W url = Ok bytes /\ bytes <> [] /\
    read_excel W bytes = Ok df /\ missing df = [].
Proof.
  unfold attempt. rewrite snd_bind. split.
  - destruct (download W url) as [e|bytes]; [discriminate|].
    destruct bytes as [|b bytes]; [discriminate|]. cbn [List.length Nat.eqb].
    destruct (read_excel W (b :: bytes)) as [e|df'] eqn:Hr; [discriminate|].
    destruct (forallb _ required_columns) eqn:Hf; [|discriminate].
    simpl. intros H. injection H as <-.
    exists (b :: bytes). repeat split; try assumption; try discriminate.
    now apply missing_nil.
  - intros [bytes [-> [Hne [Hr Hm]]]].
    destruct bytes as [|b bytes]; [contradiction|]. cbn [List.length Nat.eqb].
    rewrite Hr. apply missing_nil in Hm. rewrite Hm. reflexivity.
Qed.

Lemma attempt_return_log (W : World) (i : nat) (url : string) (df : DataFrame) :
  snd (attempt W i url) = Return df -> fst (attempt W i url) = [descargando i].
Proof.
  intros H. pose proof H as H'.
  apply attempt_return in H' as [bytes [Hd [Hne [Hr Hm]]]].
  unfold attempt in *. rewrite Hd in *.
  destruct bytes as [|b bytes]; [contradiction|]. cbn [List.length Nat.eqb] in *.
  rewrite Hr in *. apply missing_nil in Hm. rewrite Hm. reflexivity.
Qed.

Lemma load_from_step (W : World) (i : nat) (url : string) (rest : list string) :
  load_from W i (url :: rest) =
  match snd (attempt W i url) with
  | Return df => (fst (attempt W i url), Some df)
  | Continue =>
      (fst (attempt W i url) ++ fst (load_from W (S i) rest),
       snd (load_from W (S i) rest))
  end.
Proof.
  cbn [load_from]. unfold bind at 1.
  destruct (attempt W i url) as [l [|df]]; cbn [fst snd].
  - now destruct (load_from W (S i) rest).
  - unfold ret. now rewrite app_nil_r.
Qed.

Lemma load_from_some (W : World) (urls : list string) (df : DataFrame) :
  forall i : nat,
    snd (load_from W i urls) = Some df ->
    exists (j : nat) (url : string), snd (attempt W j url) = Return df.
Proof.
  induction urls as [|url rest IH]; intros i H.
  - discriminate.
  - rewrite load_from_step in H.
    destruct (snd (attempt W i url)) as [|df'] eqn:E; cbn [snd] in H.
    + eauto.
    + injection H as ->. eauto.
Qed.

(** C4 as stated does not hold: a sheet with the twelve headers and an
    empty [Caja] cell is loaded as it is. *)
Lemma loaded_table_may_hold_nulls :
  ~ (forall (W : World) (df : DataFrame),
       snd (load_data W) = Some df ->
       forall (r : Row) (c : string),
         In r (rows df) -> In c required_columns -> row_get c r <> NaN).
Proof.
  intros H.
  apply (H (Ejemplo.mundo_bueno Ejemplo.con_celda_vacia) Ejemplo.con_celda_vacia
           eq_refl (Ejemplo.fila "A" (Date Ejemplo.marzo_15) 1001 NaN) "Caja").
  - left. reflexivity.
  - simpl. tauto.
  - reflexivity.
Qed.

(** C4, amended.  A table that [load_data] returns has every one of the
    twelve required columns among its columns; the cells under them are not
    examined. *)
Theorem loaded_table_has_required_columns (W : World) (df : DataFrame) :
  snd (load_data W) = Some df ->
  forall c : string, In c required_columns -> In c (columns df).
Proof.
  intros H c Hc. unfold load_data in H.
  apply load_from_some in H as [j [url H]].
  apply attempt_return in H as [bytes [_ [_ [_ Hm]]]].
  apply missing_nil in Hm. rewrite forallb_forall in Hm.
  apply has_column_In. now apply Hm.
Qed.

Lemma loaded_table_has_required_columns_witness :
  snd (load_data (Ejemplo.mundo_bueno Ejemplo.con_celda_vacia))
    = Some Ejemplo.con_celda_vacia /\
  In "Caja" (columns Ejemplo.con_celda_vacia).
Proof.
  split; [reflexivity|].
  apply (loaded_table_has_required_columns
           (Ejemplo.mundo_bueno Ejemplo.con_celda_vacia)).
  - reflexivity.
  - simpl. tauto.
Defined.

(** C7.  A source whose file parses but lacks a required column is turned
    down with the warning that lists the absent required columns, each of
    them and nothing else, in the order of [required_columns]; the turn
    ends in [continue], so the load goes on with the next source. *)
Theorem missing_columns_skip_source (W : World) (i : nat) (url : string)
    (rest : list string) (bytes : list Byte.byte) (df : DataFrame) :
  download W url = Ok bytes -> bytes <> [] -> read_excel W bytes = Ok df ->
  (exists c : string, In c required_columns /\ ~ In c (columns df)) ->
  attempt W i url = ([descargando i; faltan_columnas i (missing df)], Continue) /\
  faltan_columnas i (missing df) =
    Warning ("Fuente " ++ show (i + 1) ++ ": Faltan columnas: "
             ++ String.concat ", " (missing df))%string /\
  (forall c : string,
     In c (missing df) <-> In c required_columns /\ ~ In c (columns df)) /\
  load_from W i (url :: rest) =
    (descargando i :: faltan_columnas i (missing df)
       :: fst (load_from W (S i) rest),
     snd (load_from W (S i) rest)).
Proof.
  intros Hd Hne Hr [c Hc].
  assert (attempt W i url
          = ([descargando i; faltan_columnas i (missing df)], Continue)) as Ha.
  { unfold attempt. rewrite Hd.
    destruct bytes as [|b bytes]; [contradiction|]. cbn [List.length Nat.eqb].
    rewrite Hr.
    destruct (forallb _ required_columns) eqn:Hf; [|reflexivity].
    apply missing_nil in Hf. apply missing_spec in Hc. rewrite Hf in Hc.
    contradiction. }
  split; [assumption|]. split; [reflexivity|]. split; [apply missing_spec|].
  rewrite load_from_step, Ha. reflexivity.
Qed.

Lemma missing_columns_skip_source_witness :
  attempt (Ejemplo.mundo_bueno Ejemplo.sin_caja_ni_centro) 0
          "https://drive.google.com/uc?id=10NLcCVPLe3q9kpqFyOeCrOSY9d5U-WSA"
  = ([ Spinner "Descargando desde fuente 1...";
       Warning "Fuente 1: Faltan columnas: Caja, Centro" ], Continue).
Proof.
  apply (missing_columns_skip_source
           (Ejemplo.mundo_bueno Ejemplo.sin_caja_ni_centro) 0 _ []
           Ejemplo.xlsx Ejemplo.sin_caja_ni_centro).
  - reflexivity.
  - discriminate.
  - reflexivity.
  - exists "Caja". split; [simpl; tauto|].
    simpl. intros H. repeat (destruct H as [H|H]; [discriminate|]). exact H.
Defined.

Lemma load_from_skips (W : World) (urls1 : list string) :
  forall (i : nat) (rest : list string),
    all_continue W i urls1 ->
    load_from W i (urls1 ++ rest) =
    (attempts_log W i urls1 ++ fst (load_from W (i + List.length urls1) rest),
     snd (load_from W (i + List.length urls1) rest)).
Proof.
  induction urls1 as [|u urls1 IH]; intros i rest Hall.
  - cbn [List.length app attempts_log]. rewrite Nat.add_0_r.
    now destruct (load_from W i rest).
  - destruct Hall as [Hu Hall].
    cbn [app]. rewrite load_from_step, Hu, (IH (S i) rest Hall).
    cbn [fst snd attempts_log List.length].
    rewrite <- Nat.add_succ_comm, app_assoc. reflexivity.
Qed.

Lemma attempts_log_app (W : World) (urls1 urls2 : list string) :
  forall i : nat,
    attempts_log W i (urls1 ++ urls2) =
    attempts_log W i urls1 ++ attempts_log W (i + List.length urls1) urls2.
Proof.
  induction urls1 as [|u urls1 IH]; intros i; cbn [app attempts_log List.length].
  - now rewrite Nat.add_0_r.
  - rewrite IH, <- Nat.add_succ_comm, app_assoc. reflexivity.
Qed.

(** C8.  For any list of sources: a zero-byte download ends the turn with a
    warning and [continue]; a turn returns a table exactly when the
    download left a non-empty file that parses and has the twelve columns;
    when the sources before one all end in [continue] and that one returns
    a table, the load returns that table, the page shows the attempts on
    those sources in list order and no later source is tried.  With two
    sources, the first leaving zero bytes and the second a valid file, the
    load returns the second's table after one warning for the first. *)
Theorem first_valid_source_wins (W : World) :
  (forall (i : nat) (url : string),
     download W url = Ok [] ->
     attempt W i url =
       ([descargando i;
         intento_fallido i "El archivo descargado está vacío"], Continue)) /\
  (forall (i : nat) (url : string) (df : DataFrame),
     snd (attempt W i url) = Return df <->
     exists bytes : list Byte.byte,
       download W url = Ok bytes /\ bytes <> [] /\
       read_excel W bytes = Ok df /\ missing df = []) /\
  (forall (urls1 : list string) (url : string) (urls2 : list string)
          (i : nat) (df : DataFrame),
     all_continue W i urls1 ->
     snd (attempt W (i + List.length urls1) url) = Return df ->
     load_from W i (urls1 ++ url :: urls2) =
       (attempts_log W i (urls1 ++ [url]), Some df)) /\
  (forall (url1 url2 : string) (bytes : list Byte.byte) (df : DataFrame),
     download W url1 = Ok [] ->
     download W url2 = Ok bytes -> bytes <> [] ->
     read_excel W bytes = Ok df -> missing df = [] ->
     load_from W 0 [url1; url2] =
       ([descargando 0;
         intento_fallido 0 "El archivo descargado está vacío";
         descargando 1], Some df)).
Proof.
  assert (forall (i : nat) (url : string),
            download W url = Ok [] ->
            attempt W i url =
              ([descargando i;
                intento_fallido i "El archivo descargado está vacío"],
               Continue)) as Hzero.
  { intros i url Hd. unfold attempt. rewrite Hd. reflexivity. }
  split; [exact Hzero|]. split; [apply attempt_return|]. split.
  - intros urls1 url urls2 i df Hall Hret.
    rewrite (load_from_skips W urls1 i (url :: urls2) Hall).
    rewrite load_from_step, Hret. cbn [fst snd].
    rewrite attempts_log_app. cbn [attempts_log]. now rewrite app_nil_r.
  - intros url1 url2 bytes df H1 H2 Hne Hr Hm.
    assert (snd (attempt W 1 url2) = Return df) as Hret.
    { apply attempt_return. eauto. }
    rewrite load_from_step, (Hzero 0%nat url1 H1). cbn [fst snd].
    rewrite load_from_step, Hret, (attempt_return_log W 1 url2 df Hret).
    reflexivity.
Qed.

Lemma first_valid_source_wins_witness :
  load_data (Ejemplo.mundo_primera_vacia Ejemplo.un_registro) =
    ([ Spinner "Descargando desde fuente 1...";
       Warning "Intento 1 fallido: El archivo descargado está vacío";
       Spinner "Descargando desde fuente 2..." ],
     Some Ejemplo.un_registro).
Proof.
  destruct (first_valid_source_wins
              (Ejemplo.mundo_primera_vacia Ejemplo.un_registro))
    as [_ [_ [_ H]]].
  apply (H _ _ Ejemplo.xlsx Ejemplo.un_registro).
  - reflexivity.
  - reflexivity.
  - discriminate.
  - reflexivity.
  - reflexivity.
Defined.

(** ** The load cache *)

(** C3 as stated does not hold: after a load that failed at time 0, a call
    one minute later returns the stored failure although the sources would
    now answer. *)
Lemma failed_load_is_served_again :
  ~ (forall (W0 W1 : World) (t0 t1 : Z),
       snd (load_data W0) = None ->
       t0 <= t1 < t0 + 3600 ->
       snd (load_data_cached (fst (load_data_cached None t0 W0)) t1 W1)
       = load_data W1).
Proof.
  intros H.
  specialize (H Ejemplo.mundo_caido (Ejemplo.mundo_bueno Ejemplo.un_registro)
                0 60 eq_refl ltac:(lia)).
  apply (f_equal snd) in H. discriminate H.
Qed.

(** C3, amended.  The cache keeps what [load_data] returned, a failure
    ([None]) like a table.  After a first call at [t0], every call less
    than 3600 seconds later gets that stored result and leaves the cache as
    it is, whatever the sources would answer then; a call 3600 seconds
    later or more runs the pipeline again and stores its result. *)
Theorem load_cache_keeps_any_result (W0 : World) (t0 : Z) :
  load_data_cached None t0 W0 = (Some (t0, load_data W0), load_data W0) /\
  (forall (t1 : Z) (W1 : World),
     t1 - t0 < 3600 ->
     load_data_cached (Some (t0, load_data W0)) t1 W1
     = (Some (t0, load_data W0), load_data W0)) /\
  (forall (t1 : Z) (W1 : World),
     3600 <= t1 - t0 ->
     load_data_cached (Some (t0, load_data W0)) t1 W1
     = (Some (t1, load_data W1), load_data W1)).
Proof.
  unfold load_data_cached, st_cache_data. split; [reflexivity|]. split.
  - intros t1 W1 H. apply Z.ltb_lt in H. now rewrite H.
  - intros t1 W1 H. apply Z.ltb_ge in H. now rewrite H.
Qed.

Lemma load_cache_keeps_any_result_witness :
  snd (load_data Ejemplo.mundo_caido) = None /\
  snd (snd (load_data_cached (Some (0, load_data Ejemplo.mundo_caido)) 60
                             (Ejemplo.mundo_bueno Ejemplo.un_registro)))
  = None.
Proof.
  split; [reflexivity|].
  destruct (load_cache_keeps_any_result Ejemplo.mundo_caido 0) as [_ [H _]].
  rewrite (H 60 (Ejemplo.mundo_bueno Ejemplo.un_registro)) by lia.
  reflexivity.
Defined.

(** * Further properties *)

(** ** Identity of values *)

Lemma same_cell_refl (a : Cell) : same_cell a a = true.
Proof.
  destruct a; simpl; auto using String.eqb_refl, Z.eqb_refl.
  - apply Qeq_bool_iff. reflexivity.
  - apply Qeq_bool_iff. reflexivity.
  - now destruct b.
Qed.

Lemma same_cell_sym (a b : Cell) : same_cell a b = same_cell b a.
Proof.
  destruct a, b; simpl; auto using String.eqb_sym, Z.eqb_sym;
    try (apply eq_true_iff_eq; rewrite !Qeq_bool_iff; split; intros H;
         now symmetry).
  now destruct b, b0.
Qed.

Lemma same_cell_trans (a b c : Cell) :
  same_cell a b = true -> same_cell b c = true -> same_cell a c = true.
Proof.
  destruct a, b; simpl; try discriminate; destruct c; simpl; try discriminate;
    try tauto;
    try (rewrite !Qeq_bool_iff; intros H1 H2; now rewrite H1).
  - rewrite !String.eqb_eq. congruence.
  - rewrite !Z.eqb_eq. congruence.
  - rewrite !Bool.eqb_true_iff. congruence.
Qed.

Lemma same_cell_notna (a b : Cell) :
  same_cell a b = true -> notna a = notna b.
Proof. destruct a, b; simpl; intros H; try reflexivity; discriminate. Qed.

(** ** [unique] *)

Lemma unique_incl (cs : list Cell) (c : Cell) :
  In c (unique cs) -> In c cs.
Proof.
  revert c. induction cs as [|a cs IH]; intros c; simpl; [tauto|].
  intros [->|H]; [now left|]. right. apply IH.
  now apply filter_In in H.
Qed.

Lemma unique_covers (cs : list Cell) (c : Cell) :
  In c cs -> existsb (fun k => same_cell k c) (unique cs) = true.
Proof.
  induction cs as [|a cs IH]; simpl; [tauto|].
  intros [->|H].
  - now rewrite same_cell_refl.
  - destruct (same_cell a c) eqn:E; [reflexivity|]. simpl.
    specialize (IH H). apply existsb_exists in IH as [k [Hk Hs]].
    apply existsb_exists. exists k. split; [|assumption].
    apply filter_In. split; [assumption|].
    destruct (same_cell a k) eqn:E'; [|reflexivity].
    rewrite (same_cell_trans a k c E' Hs) in E. discriminate.
Qed.

Lemma ForallOrdPairs_filter {A : Type} (R : A -> A -> Prop) (f : A -> bool)
    (l : list A) :
  ForallOrdPairs R l -> ForallOrdPairs R (filter f l).
Proof.
  induction 1 as [|a l Ha Hl IH]; simpl; [constructor|].
  destruct (f a); [|assumption]. constructor; [|assumption].
  rewrite Forall_forall in *. intros x Hx. apply filter_In in Hx. now apply Ha.
Qed.

Lemma unique_distinct (cs : list Cell) : ForallOrdPairs differ (unique cs).
Proof.
  induction cs as [|a cs IH]; simpl; constructor.
  - apply Forall_forall. intros x Hx. apply filter_In in Hx as [_ Hx].
    unfold differ. now apply negb_true_iff.
  - now apply ForallOrdPairs_filter.
Qed.

Lemma unique_nonempty (cs : list Cell) : cs <> [] -> unique cs <> [].
Proof. destruct cs; simpl; [congruence|discriminate]. Qed.

Lemma length_filter_le {A : Type} (f : A -> bool) (l : list A) :
  (List.length (filter f l) <= List.length l)%nat.
Proof.
  induction l as [|a l IH]; simpl; [lia|]. destruct (f a); simpl; lia.
Qed.

Lemma length_unique_le (cs : list Cell) :
  (List.length (unique cs) <= List.length cs)%nat.
Proof.
  induction cs as [|a cs IH]; simpl; [lia|].
  pose proof (length_filter_le (fun d => negb (same_cell a d)) (unique cs)).
  lia.
Qed.

(** ** Sums *)

Lemma sum_cons (c : Cell) (cs : list Cell) :
  (sum (c :: cs) == valor c + sum cs)%Q.
Proof.
  unfold valor; simpl. destruct (num_of c); [reflexivity|].
  now rewrite Qplus_0_l.
Qed.

Lemma sum_filter_or {A : Type} (g : A -> Cell) (p q : A -> bool) (l : list A) :
  (forall r, In r l -> p r = true -> q r = true -> False) ->
  (sum (map g (filter (fun r => p r || q r) l))
   == sum (map g (filter p l)) + sum (map g (filter q l)))%Q.
Proof.
  induction l as [|a l IH]; intros Hd.
  - simpl. now rewrite Qplus_0_l.
  - assert (forall r, In r l -> p r = true -> q r = true -> False) as Hd'
      by (intros r Hr; apply Hd; now right).
    specialize (IH Hd'). cbn [filter].
    destruct (p a) eqn:Hp, (q a) eqn:Hq; cbn [orb map].
    + exfalso. apply (Hd a); auto. now left.
    + rewrite !sum_cons, IH. ring.
    + rewrite !sum_cons, IH. ring.
    + exact IH.
Qed.

(** The group sums over pairwise different keys add up to the sum over the
    rows that fall under one of the keys. *)
Lemma group_sums_total (key g : Row -> Cell) (l : list Row) (ks : list Cell) :
  ForallOrdPairs differ ks ->
  (sum (map (fun k => Num (sum (map g (filter (fun r => same_cell k (key r)) l))))
            ks)
   == sum (map g (filter (fun r => existsb (fun k => same_cell k (key r)) ks) l)))%Q.
Proof.
  induction 1 as [|k ks Hk Hks IH].
  - simpl. induction l as [|a l IHl]; simpl; [reflexivity|exact IHl].
  - cbn [map existsb]. rewrite sum_cons, IH. cbn [valor num_of].
    symmetry. apply sum_filter_or.
    intros r _ H1 H2. apply existsb_exists in H2 as [k' [Hin H2]].
    rewrite Forall_forall in Hk. specialize (Hk k' Hin). unfold differ in Hk.
    rewrite same_cell_sym in H2.
    rewrite (same_cell_trans k (key r) k' H1 H2) in Hk. discriminate.
Qed.

Lemma keys_cover (key : Row -> Cell) (l : list Row) (r : Row) :
  In r l ->
  existsb (fun k => same_cell k (key r)) (unique (filter notna (map key l)))
  = notna (key r).
Proof.
  intros Hin. destruct (notna (key r)) eqn:E.
  - apply unique_covers. apply filter_In. split; [|assumption].
    now apply in_map.
  - apply not_true_is_false. intros H.
    apply existsb_exists in H as [k [Hk Hs]].
    apply unique_incl, filter_In in Hk as [_ Hk].
    apply same_cell_notna in Hs. congruence.
Qed.

Lemma groupby_sums (key col : string) (df : DataFrame) :
  (sum (map (fun g : Cell * list Row => Num (sum (map (row_get col) (snd g))))
            (groupby key df))
   == sum (column col (select (fun r => notna (row_get key r)) df)))%Q.
Proof.
  unfold groupby, column, select. cbn [rows]. rewrite map_map. cbn [snd].
  rewrite (group_sums_total (row_get key) (row_get col) (rows df))
    by apply unique_distinct.
  rewrite (filter_ext_in _ (fun r => notna (row_get key r))); [reflexivity|].
  intros r Hr. rewrite <- map_map with (f := row_get key) (g := fun x => x) at 1.
  rewrite map_id. now apply keys_cover.
Qed.

Lemma filter_all {A : Type} (f : A -> bool) (l : list A) :
  (forall x, In x l -> f x = true) -> filter f l = l.
Proof.
  induction l as [|a l IH]; intros H; simpl; [reflexivity|].
  rewrite (H a) by now left. f_equal. apply IH. intros x Hx. apply H. now right.
Qed.

Lemma select_present (key : string) (df : DataFrame) :
  (forall r, In r (rows df) -> row_get key r <> NaN) ->
  rows (select (fun r => notna (row_get key r)) df) = rows df.
Proof.
  intros H. unfold select. cbn [rows]. apply filter_all.
  intros r Hr. specialize (H r Hr). now destruct (row_get key r).
Qed.

Lemma column_ventas_vendedor (df : DataFrame) :
  column "Monto Total" (ventas_vendedor df)
  = map (fun g : Cell * list Row =>
           Num (sum (map (row_get "Monto Total") (snd g))))
        (groupby "Vendedor" df) /\
  column "Caja" (ventas_vendedor df)
  = map (fun g : Cell * list Row => Num (sum (map (row_get "Caja") (snd g))))
        (groupby "Vendedor" df).
Proof.
  unfold column, ventas_vendedor. cbn [rows]. rewrite !map_map.
  split; apply map_ext; intros [k g]; reflexivity.
Qed.

Lemma column_ventas_centro (df : DataFrame) :
  column "Monto Total" (ventas_centro df)
  = map (fun g : Cell * list Row =>
           Num (sum (map (row_get "Monto Total") (snd g))))
        (groupby "Centro" df) /\
  column "Caja" (ventas_centro df)
  = map (fun g : Cell * list Row => Num (sum (map (row_get "Caja") (snd g))))
        (groupby "Centro" df).
Proof.
  unfold column, ventas_centro. cbn [rows]. rewrite !map_map.
  split; apply map_ext; intros [k g]; reflexivity.
Qed.



(** ** Groups *)

Lemma groupby_keys (key : string) (df : DataFrame) :
  map fst (groupby key df) = unique (filter notna (column key df)).
Proof. unfold groupby. rewrite map_map. cbn [fst]. apply map_id. Qed.

Lemma groupby_group (key : string) (df : DataFrame) (k : Cell) (g : list Row) :
  In (k, g) (groupby key df) ->
  k <> NaN /\ In k (column key df) /\
  g = filter (fun r => same_cell k (row_get key r)) (rows df) /\ g <> [].
Proof.
  unfold groupby. intros H. apply in_map_iff in H as [k' [E Hk]].
  injection E as -> <-.
  apply unique_incl, filter_In in Hk as [Hk Hn].
  split; [intros ->; discriminate|]. split; [assumption|].
  split; [reflexivity|].
  unfold column in Hk. apply in_map_iff in Hk as [r [<- Hr]].
  intros Hf.
  assert (In r (filter (fun r0 => same_cell (row_get key r) (row_get key r0))
                       (rows df))) as Hin
    by (apply filter_In; split; [assumption|apply same_cell_refl]).
  rewrite Hf in Hin. contradiction.
Qed.

Lemma nunique_nonneg (cs : list Cell) : 0 <= nunique cs.
Proof. unfold nunique. lia. Qed.

Lemma nunique_le_length (cs : list Cell) :
  nunique cs <= Z.of_nat (List.length cs).
Proof.
  unfold nunique.
  pose proof (length_unique_le (filter notna cs)).
  pose proof (length_filter_le notna cs). lia.
Qed.

Lemma nunique_zero (cs : list Cell) :
  nunique cs = 0 <-> forall c, In c cs -> c = NaN.
Proof.
  unfold nunique. split.
  - intros H c Hc. destruct (notna c) eqn:E; [|now destruct c].
    assert (In c (filter notna cs)) as Hin by (apply filter_In; auto).
    destruct (filter notna cs) as [|a l]; [contradiction|].
    simpl in H. lia.
  - intros H.
    assert (filter notna cs = []) as ->; [|reflexivity].
    induction cs as [|a cs IH]; [reflexivity|]. simpl.
    rewrite (H a) by now left. simpl. apply IH.
    intros c Hc. apply H. now right.
Qed.

Lemma nunique_positive (cs : list Cell) (c : Cell) :
  In c cs -> c <> NaN -> 1 <= nunique cs.
Proof.
  intros Hc Hn. pose proof (nunique_nonneg cs).
  destruct (Z.eq_dec (nunique cs) 0) as [E|E]; [|lia].
  exfalso. apply Hn. apply (proj1 (nunique_zero cs) E c Hc).
Qed.

Lemma pedidos_vendedor_keys (objetivo : positive) (df : DataFrame) :
  map Vendedor (pedidos_vendedor objetivo df)
  = unique (filter notna (column "Vendedor" df)).
Proof.
  unfold pedidos_vendedor. rewrite map_map, <- groupby_keys.
  apply map_ext. intros [k g]. reflexivity.
Qed.



(** X3.  When every line of [df_filtrado] has a day, each salesperson of
    [pedidos_vendedor] worked at least one day, so the orders per day and
    the compliance percentage are finite numbers: orders over days, and
    that over the target times 100. *)
Theorem orders_per_day_finite (objetivo : positive) (df : DataFrame)
    (pv : PedidosVendedor) :
  (forall r, In r (rows df) -> row_get "Dia" r <> NaN) ->
  In pv (pedidos_vendedor objetivo df) ->
  1 <= Dia pv /\ 0 <= Pedido pv /\
  Pedidos_Dia pv = Finite (inject_Z (Pedido pv) / inject_Z (Dia pv))%Q /\
  Cumplimiento pv
  = Finite (inject_Z (Pedido pv) / inject_Z (Dia pv)
            / inject_Z (Z.pos objetivo) * 100)%Q.
Proof.
  intros Hd Hpv. unfold pedidos_vendedor in Hpv.
  apply in_map_iff in Hpv as [[k g] [<- Hg]]. cbn [Dia Pedido Pedidos_Dia Cumplimiento].
  apply groupby_group in Hg as [_ [_ [Eg Hne]]].
  assert (1 <= nunique (map (row_get "Dia") g)) as H1.
  { destruct g as [|r g']; [contradiction|].
    apply (nunique_positive _ (row_get "Dia" r)); [now left|].
    apply Hd. assert (In r (r :: g')) as Hin by now left.
    rewrite Eg in Hin. now apply filter_In in Hin. }
  split; [assumption|]. split; [apply nunique_nonneg|].
  unfold truediv.
  destruct (nunique (map (row_get "Dia") g) =? 0) eqn:E;
    [apply Z.eqb_eq in E; lia|]. split; reflexivity.
Qed.

Lemma orders_per_day_finite_witness :
  Forall (fun pv => 1 <= Dia pv)
         (pedidos_vendedor 45 (enriquecer Ejemplo.un_registro)).
Proof.
  apply Forall_forall. intros pv Hpv.
  apply (orders_per_day_finite 45 (enriquecer Ejemplo.un_registro) pv);
    [|assumption].
  intros r Hr. rewrite rows_enriquecer in Hr.
  apply in_map_iff in Hr as [r0 [<- Hr]].
  destruct Hr as [<-|[]]. vm_compute. discriminate.
Defined.



(** ** The comparison with the month before *)



(** X6.  For a selected month between 1 and 12 the comparison period is a
    month between 1 and 12 again, and it is the month just before the
    selected one on the calendar. *)
Theorem previous_period_is_one_month_back (s : Seleccion) :
  1 <= mes_seleccionado s <= 12 ->
  1 <= mes_anterior s <= 12 /\
  12 * año_mes_anterior s + mes_anterior s
  = 12 * año_seleccionado s + mes_seleccionado s - 1.
Proof.
  intros H. unfold mes_anterior, año_mes_anterior.
  destruct (mes_seleccionado s >? 1) eqn:E; rewrite Z.gtb_ltb in E.
  - apply Z.ltb_lt in E. lia.
  - apply Z.ltb_ge in E. lia.
Qed.

Lemma previous_period_is_one_month_back_witness :
  12 * año_mes_anterior Ejemplo.enero_2024 + mes_anterior Ejemplo.enero_2024
  = 12 * 2024 + 1 - 1.
Proof.
  apply (previous_period_is_one_month_back Ejemplo.enero_2024). simpl. lia.
Defined.

(** ** The filter, once more *)

(** X7.  [df_filtrado] has the columns of the table, its rows are rows of
    the table, and it is never empty when the table is not: the tabs never
    work on an empty table. *)
Theorem filtered_table_is_never_empty (df : DataFrame) (s : Seleccion) :
  columns (snd (aplicar_filtros df s)) = columns df /\
  (forall r, In r (rows (snd (aplicar_filtros df s))) -> In r (rows df)) /\
  (rows df <> [] -> rows (snd (aplicar_filtros df s)) <> []).
Proof.
  destruct (aplicar_filtros_cases df s) as [[He ->]|[Hne ->]]; cbn [snd].
  - auto.
  - split; [reflexivity|]. split; [|auto].
    intros r Hr. unfold coincidencias, select in Hr. cbn [rows] in Hr.
    now apply filter_In in Hr.
Qed.

Lemma filtered_table_is_never_empty_witness :
  rows (snd (aplicar_filtros (enriquecer Ejemplo.un_registro) Ejemplo.abril_2024))
  <> [].
Proof.
  apply (filtered_table_is_never_empty (enriquecer Ejemplo.un_registro)).
  vm_compute. discriminate.
Defined.

(** ** Loading, once more *)

Lemma attempt_log (W : World) (i : nat) (url : string) :
  match snd (attempt W i url) with
  | Return _ => fst (attempt W i url) = [descargando i]
  | Continue => exists w, fst (attempt W i url) = [descargando i; Warning w]
  end.
Proof.
  unfold attempt, intento_fallido, faltan_columnas.
  destruct (download W url) as [e|bytes]; [simpl; eauto|].
  destruct bytes as [|b bytes]; [simpl; eauto|]. cbn [List.length Nat.eqb].
  destruct (read_excel W (b :: bytes)) as [e|df]; [simpl; eauto|].
  destruct (forallb _ required_columns); simpl; eauto.
Qed.

Lemma attempt_no_error (W : World) (i : nat) (url e : string) :
  ~ In (Error e) (fst (attempt W i url)).
Proof.
  pose proof (attempt_log W i url) as H.
  destruct (snd (attempt W i url)).
  - destruct H as [w H]. rewrite H. unfold descargando.
    intros [F|[F|[]]]; discriminate.
  - rewrite H. unfold descargando. intros [F|[]]. discriminate.
Qed.

Lemma attempts_log_no_error (W : World) (urls : list string) (e : string) :
  forall i, ~ In (Error e) (attempts_log W i urls).
Proof.
  induction urls as [|u urls IH]; intros i; simpl; [tauto|].
  rewrite in_app_iff. intros [H|H]; [now apply attempt_no_error in H|].
  now apply IH in H.
Qed.

Lemma load_from_all_continue (W : World) (urls : list string) :
  forall i,
    all_continue W i urls ->
    load_from W i urls =
    (attempts_log W i urls
       ++ [Error "❌ No se pudo cargar el archivo desde ninguna fuente disponible"],
     None).
Proof.
  induction urls as [|u urls IH]; intros i H.
  - reflexivity.
  - destruct H as [Hu H]. rewrite load_from_step, Hu, (IH (S i) H).
    cbn [fst snd attempts_log]. now rewrite app_assoc.
Qed.

Lemma load_from_none (W : World) (urls : list string) :
  forall i, snd (load_from W i urls) = None -> all_continue W i urls.
Proof.
  induction urls as [|u urls IH]; intros i H; cbn [all_continue]; [exact I|].
  rewrite load_from_step in H.
  destruct (snd (attempt W i u)) eqn:E; cbn [snd] in H; [|discriminate].
  split; [reflexivity|]. now apply IH.
Qed.

Lemma load_from_some_log (W : World) (urls : list string) (df : DataFrame) :
  forall i,
    snd (load_from W i urls) = Some df ->
    exists tried, fst (load_from W i urls) = attempts_log W i tried.
Proof.
  induction urls as [|u urls IH]; intros i H; [discriminate|].
  rewrite load_from_step in *.
  destruct (snd (attempt W i u)) eqn:E; cbn [fst snd] in *.
  - destruct (IH (S i) H) as [tried Ht]. exists (u :: tried).
    cbn [attempts_log]. now rewrite Ht.
  - exists [u]. cbn [attempts_log]. now rewrite app_nil_r.
Qed.

(** X8.  The load returns [None] exactly when every source in the list ends
    in [continue]; the page then shows every attempt in list order and the
    final error after them.  The final error is never shown together with
    a table. *)
Theorem load_fails_when_every_source_fails (W : World) (urls : list string)
    (i : nat) :
  (snd (load_from W i urls) = None <-> all_continue W i urls) /\
  (all_continue W i urls ->
   fst (load_from W i urls) =
     attempts_log W i urls
       ++ [Error "❌ No se pudo cargar el archivo desde ninguna fuente disponible"]) /\
  (forall e, In (Error e) (fst (load_from W i urls)) ->
             snd (load_from W i urls) = None).
Proof.
  split; [split|split].
  - apply load_from_none.
  - intros H. now rewrite load_from_all_continue.
  - intros H. now rewrite load_from_all_continue.
  - intros e He. destruct (snd (load_from W i urls)) as [df|] eqn:E;
      [|reflexivity].
    destruct (load_from_some_log W urls df i E) as [tried Ht].
    rewrite Ht in He. now apply attempts_log_no_error in He.
Qed.

Lemma load_fails_when_every_source_fails_witness :
  load_data Muestra.mundo_roto =
    ([ Spinner "Descargando desde fuente 1...";
       Warning "Intento 1 fallido: Connection refused";
       Spinner "Descargando desde fuente 2...";
       Warning "Intento 2 fallido: File is not a zip file";
       Error "❌ No se pudo cargar el archivo desde ninguna fuente disponible" ],
     None).
Proof.
  pose proof (load_fails_when_every_source_fails Muestra.mundo_roto file_urls 0)
    as [[_ Hn] [Hl _]].
  assert (all_continue Muestra.mundo_roto 0 file_urls) as Hall
    by (repeat split).
  unfold load_data.
  rewrite (surjective_pairing (load_from Muestra.mundo_roto 0 file_urls)).
  rewrite (Hn Hall), (Hl Hall). reflexivity.
Defined.

(** X9.  No failure of a turn is silent and none leaves the loop: when the
    download raises, or the file parses with an exception, the turn shows
    "Intento n fallido" with the text of the exception and goes on; a turn
    that goes on has shown exactly one warning after its spinner, a turn
    that returns a table has shown the spinner alone. *)
Theorem exceptions_become_warnings (W : World) (i : nat) (url : string) :
  (forall e, download W url = Raised e ->
     attempt W i url = ([descargando i; intento_fallido i e], Continue)) /\
  (forall bytes e,
     download W url = Ok bytes -> bytes <> [] ->
     read_excel W bytes = Raised e ->
     attempt W i url = ([descargando i; intento_fallido i e], Continue)) /\
  (snd (attempt W i url) = Continue ->
   exists w, fst (attempt W i url) = [descargando i; Warning w]) /\
  (forall df, snd (attempt W i url) = Return df ->
     fst (attempt W i url) = [descargando i]).
Proof.
  split; [|split; [|split]].
  - intros e H. unfold attempt. now rewrite H.
  - intros bytes e H Hne Hr. unfold attempt. rewrite H.
    destruct bytes as [|b bytes]; [contradiction|]. cbn [List.length Nat.eqb].
    now rewrite Hr.
  - intros H. pose proof (attempt_log W i url) as L. now rewrite H in L.
  - intros df H. pose proof (attempt_log W i url) as L. now rewrite H in L.
Qed.

Lemma exceptions_become_warnings_witness :
  attempt Muestra.mundo_roto 1
    "https://docs.google.com/spreadsheets/d/10NLcCVPLe3q9kpqFyOeCrOSY9d5U-WSA/export?format=xlsx"
  = ([ Spinner "Descargando desde fuente 2...";
       Warning "Intento 2 fallido: File is not a zip file" ], Continue).
Proof.
  destruct (exceptions_become_warnings Muestra.mundo_roto 1
    "https://docs.google.com/spreadsheets/d/10NLcCVPLe3q9kpqFyOeCrOSY9d5U-WSA/export?format=xlsx")
    as [_ [H _]].
  apply (H Ejemplo.xlsx).
  - reflexivity.
  - discriminate.
  - reflexivity.
Defined.

Lemma prefix_spec (n h : string) :
  String.prefix n h = true <-> exists post, h = (n ++ post)%string.
Proof.
  revert h. induction n as [|a n IH]; intros h; destruct h as [|b h]; simpl.
  - split; [exists ""|]; reflexivity.
  - split; [exists (String b h)|]; reflexivity.
  - split; [discriminate|]. intros [post H]. discriminate.
  - destruct (ascii_dec a b) as [->|Hne].
    + rewrite IH. split; intros [post H]; exists post.
      * now rewrite H.
      * now injection H.
    + split; [discriminate|]. intros [post H]. injection H as -> _.
      contradiction.
Qed.

Lemma contains_spec (n h : string) :
  contains n h = true <->
  exists pre post, h = (pre ++ n ++ post)%string.
Proof.
  induction h as [|c h IH].
  - cbn [contains]. rewrite orb_false_r, prefix_spec. split.
    + intros [post H]. exists "", post. exact H.
    + intros [pre [post H]]. destruct pre; [eauto|discriminate].
  - cbn [contains]. rewrite orb_true_iff, prefix_spec, IH. split.
    + intros [[post H]|[pre [post H]]].
      * exists "", post. exact H.
      * exists (String c pre), post. simpl. now rewrite H.
    + intros [pre [post H]]. destruct pre as [|c' pre].
      * left. eauto.
      * right. injection H as _ ->. eauto.
Qed.

(** X10.  The download goes through gdown exactly for the addresses that
    have [drive.google.com] somewhere in them, and through an HTTP GET for
    all others. *)
Theorem download_by_address (W : World) (file_url : string) :
  ((exists pre post,
      file_url = (pre ++ "drive.google.com" ++ post)%string) ->
   download W file_url = gdown_download W file_url) /\
  (~ (exists pre post,
        file_url = (pre ++ "drive.google.com" ++ post)%string) ->
   download W file_url = requests_get W file_url).
Proof.
  unfold download. split; intros H.
  - apply contains_spec in H. now rewrite H.
  - destruct (contains "drive.google.com" file_url) eqn:E; [|reflexivity].
    apply contains_spec in E. contradiction.
Qed.

Lemma download_by_address_witness :
  download (Ejemplo.mundo_primera_vacia Ejemplo.un_registro)
           "https://drive.google.com/uc?id=10NLcCVPLe3q9kpqFyOeCrOSY9d5U-WSA"
  = Ok [].
Proof.
  rewrite (proj1 (download_by_address _ _)); [reflexivity|].
  exists "https://", "/uc?id=10NLcCVPLe3q9kpqFyOeCrOSY9d5U-WSA". reflexivity.
Defined.

(** ** Columns through the enrichment *)

Lemma columns_assign (c c' : string) (f : Row -> Cell) (df : DataFrame) :
  In c (columns (assign c' f df)) <-> In c (columns df) \/ c = c'.
Proof.
  unfold assign. cbn [columns].
  destruct (has_column c' (columns df)) eqn:E.
  - apply has_column_In in E. split; [now left|]. now intros [H| ->].
  - rewrite in_app_iff. simpl. intuition congruence.
Qed.

Lemma NoDup_assign (c : string) (f : Row -> Cell) (df : DataFrame) :
  NoDup (columns df) -> NoDup (columns (assign c f df)).
Proof.
  intros H. unfold assign. cbn [columns].
  destruct (has_column c (columns df)) eqn:E; [assumption|].
  assert (~ In c (columns df)) as Hn.
  { intros Hin. apply has_column_In in Hin. congruence. }
  clear E. induction H as [|a l Ha Hl IH]; simpl.
  - constructor; [tauto|constructor].
  - constructor.
    + rewrite in_app_iff. simpl. intros [H'|[H'|[]]]; [contradiction|].
      subst. apply Hn. now left.
    + apply IH. intros H'. apply Hn. now right.
Qed.

Lemma enriquecer_fila_other (c : string) (r : Row) :
  ~ In c columnas_derivadas ->
  row_get c (enriquecer_fila r) = row_get c r.
Proof.
  intros Hn.
  assert (forall n, In n columnas_derivadas -> String.eqb n c = false) as Hne.
  { intros n Hin. apply String.eqb_neq. intros ->. contradiction. }
  unfold enriquecer_fila.
  repeat (rewrite row_get_set_other by (apply Hne; simpl; tauto)).
  reflexivity.
Qed.

Lemma columns_enriquecer (df : DataFrame) (c : string) :
  In c (columns (enriquecer df)) <->
  In c (columns df) \/ In c columnas_derivadas.
Proof.
  unfold enriquecer. rewrite !columns_assign. simpl. intuition congruence.
Qed.

(** X11.  Enrichment adds the seven calendar columns and nothing else: the
    columns of the enriched table are those of the table and the seven;
    column names stay free of repetitions; and the cell of a row under any
    other column, the twelve source columns among them, is what it was. *)
Theorem enrichment_only_adds_columns (df : DataFrame) :
  (forall c, In c (columns (enriquecer df)) <->
             In c (columns df) \/ In c columnas_derivadas) /\
  (NoDup (columns df) -> NoDup (columns (enriquecer df))) /\
  (forall r c, ~ In c columnas_derivadas ->
               row_get c (enriquecer_fila r) = row_get c r) /\
  (forall r c, In c required_columns ->
               row_get c (enriquecer_fila r) = row_get c r).
Proof.
  split; [|split; [|split]].
  - intros c. apply columns_enriquecer.
  - intros H. unfold enriquecer. now repeat apply NoDup_assign.
  - intros r c. apply enriquecer_fila_other.
  - intros r c Hc. apply enriquecer_fila_other.
    simpl in Hc. simpl. intros Hd.
    repeat (destruct Hc as [<-|Hc];
            [repeat (destruct Hd as [Hd|Hd]; [discriminate|]); exact Hd|]).
    exact Hc.
Qed.

Lemma enrichment_only_adds_columns_witness :
  NoDup (columns (enriquecer Ejemplo.un_registro)) /\
  row_get "Monto Total"
    (enriquecer_fila (Ejemplo.fila "A" (Date Ejemplo.marzo_15) 1001 (Int 2)))
  = Num 500.
Proof.
  destruct (enrichment_only_adds_columns Ejemplo.un_registro)
    as [_ [Hn [_ Hr]]].
  split.
  - apply Hn. simpl.
    repeat (constructor;
            [simpl; intros H; repeat (destruct H as [H|H]; [discriminate|]);
             exact H|]).
    constructor.
  - rewrite Hr; [reflexivity|]. simpl. tauto.
Defined.

(** ** The cache over many calls *)

Lemma load_data_cached_cases (cache : Cache) (now : Z) (W : World) :
  (exists t v, cache = Some (t, v) /\ now - t < 3600 /\
               load_data_cached cache now W = (cache, v)) \/
  load_data_cached cache now W = (Some (now, load_data W), load_data W).
Proof.
  unfold load_data_cached, st_cache_data.
  destruct cache as [[t v]|]; [|now right].
  destruct (now - t <? 3600) eqn:E; [|now right].
  left. exists t, v. apply Z.ltb_lt in E. auto.
Qed.

Lemma cached_value_is_a_load (cache : Cache) (now : Z) (W : World) :
  cache_written cache ->
  cache_written (fst (load_data_cached cache now W)) /\
  exists W', snd (load_data_cached cache now W) = load_data W'.
Proof.
  intros Hc.
  destruct (load_data_cached_cases cache now W) as [[t [v [-> [Ht ->]]]]| ->];
    cbn [fst snd].
  - split; [assumption|]. exact Hc.
  - split; [|eauto]. simpl. eauto.
Qed.

(** X12.  Whatever the cache held before, after a call it holds the value
    the call returned, stored less than 3600 seconds before the call's
    time, and that value is an outcome of [load_data] itself, never
    anything else.  After the refresh button has cleared the cache, the
    next call runs the pipeline whatever the age of the old entry. *)
Theorem cache_holds_what_was_returned (cache : Cache) (now : Z) (W : World) :
  (cache_written cache ->
   cache_written (fst (load_data_cached cache now W)) /\
   exists W', snd (load_data_cached cache now W) = load_data W') /\
  (exists t,
     fst (load_data_cached cache now W)
     = Some (t, snd (load_data_cached cache now W)) /\ now - t < 3600) /\
  load_data_cached (clear cache) now W
  = (Some (now, load_data W), load_data W).
Proof.
  split; [|split; [|reflexivity]].
  - apply cached_value_is_a_load.
  - destruct (load_data_cached_cases cache now W) as [[t [v [-> [Ht ->]]]]| ->];
      cbn [fst snd].
    + eauto.
    + exists now. split; [reflexivity|lia].
Qed.

Lemma cache_holds_what_was_returned_witness :
  exists W',
    snd (load_data_cached (Some (0, load_data Ejemplo.mundo_caido)) 60
                          (Ejemplo.mundo_bueno Ejemplo.un_registro))
    = load_data W'.
Proof.
  apply (cache_holds_what_was_returned
           (Some (0, load_data Ejemplo.mundo_caido)) 60
           (Ejemplo.mundo_bueno Ejemplo.un_registro)).
  simpl. eauto.
Defined.

(** ** From the load to the tabs *)

Lemma procesar_some (out : Page (option DataFrame)) (df : DataFrame) :
  snd (df0 <- out ;;
       valid <- validar df0 ;;
       match valid with
       | None => ret None
       | Some d => procesamiento d
       end) = Some df ->
  exists d, snd out = Some d /\ rows d <> [] /\
            is_datetime (column "Fecha Pedido" d) = true /\ df = enriquecer d.
Proof.
  rewrite !snd_bind. unfold validar.
  destruct (snd out) as [d|]; [|discriminate].
  unfold empty. destruct (rows d) as [|r l] eqn:Er; [discriminate|].
  cbn [snd ret]. unfold procesamiento.
  destruct (is_datetime (column "Fecha Pedido" d)) eqn:E; [|discriminate].
  cbn [snd ret]. intros H. injection H as <-.
  exists d. rewrite Er. repeat split; auto. discriminate.
Qed.

Lemma load_data_columns (W : World) (d : DataFrame) (c : string) :
  snd (load_data W) = Some d -> In c required_columns -> In c (columns d).
Proof.
  intros H Hc. unfold load_data in H.
  apply load_from_some in H as [j [url H]].
  apply attempt_return in H as [bytes [_ [_ [_ Hm]]]].
  apply missing_nil in Hm. rewrite forallb_forall in Hm.
  apply has_column_In. now apply Hm.
Qed.

Lemma aplicar_filtros_nonempty (df : DataFrame) (s : Seleccion) :
  rows df <> [] -> rows (snd (aplicar_filtros df s)) <> [].
Proof.
  intros H.
  destruct (aplicar_filtros_cases df s) as [[He ->]|[Hne ->]]; assumption.
Qed.

(** X13.  When the script gets past loading, validation and enrichment, the
    table the sidebar and the tabs work on is not empty, has the twelve
    source columns and the seven calendar columns, and is the enrichment of
    a loaded table with a datetime order-date column; whatever is then
    selected in the sidebar, [df_filtrado] is not empty either. *)
Theorem tabs_get_a_complete_table (cache : Cache) (now : Z) (W : World)
    (df : DataFrame) :
  cache_written cache ->
  snd (snd (cargar_y_procesar cache now W)) = Some df ->
  rows df <> [] /\
  (forall c, In c required_columns \/ In c columnas_derivadas ->
             In c (columns df)) /\
  (exists d, df = enriquecer d /\
             is_datetime (column "Fecha Pedido" d) = true) /\
  (forall s, rows (snd (aplicar_filtros df s)) <> []).
Proof.
  intros Hc H. unfold cargar_y_procesar in H.
  destruct (load_data_cached cache now W) as [cache' out] eqn:E.
  cbn [snd] in H.
  apply procesar_some in H as [d [Hd [Hne [Hdt ->]]]].
  assert (exists W', out = load_data W') as [W' ->].
  { destruct (cached_value_is_a_load cache now W Hc) as [_ Hx].
    now rewrite E in Hx. }
  assert (rows (enriquecer d) <> []) as Hrows.
  { rewrite rows_enriquecer. destruct (rows d); [contradiction|discriminate]. }
  split; [assumption|]. split; [|split].
  - intros c Hcol.
    apply columns_enriquecer.
    destruct Hcol as [Hcol|Hcol]; [left|now right].
    apply (load_data_columns W' d c Hd Hcol).
  - eauto.
  - intros s. now apply aplicar_filtros_nonempty.
Qed.

Lemma tabs_get_a_complete_table_witness :
  rows (enriquecer Ejemplo.un_registro) <> [] /\
  In "Semana" (columns (enriquecer Ejemplo.un_registro)).
Proof.
  destruct (tabs_get_a_complete_table None 0
              (Ejemplo.mundo_bueno Ejemplo.un_registro)
              (enriquecer Ejemplo.un_registro)) as [H1 [H2 _]].
  - exact I.
  - reflexivity.
  - split; [exact H1|]. apply H2. right. simpl. tauto.
Defined.

(** ** The sidebar defaults *)

Lemma ints_all (cs : list Cell) :
  (forall c, In c cs -> exists z, c = Int z) ->
  exists zs, ints cs = Some zs /\ forall z, In z zs <-> In (Int z) cs.
Proof.
  induction cs as [|c cs IH]; intros H.
  - exists []. split; [reflexivity|]. simpl. tauto.
  - destruct (H c (or_introl eq_refl)) as [z ->].
    destruct IH as [zs [E Hz]]; [intros c Hc; apply H; now right|].
    exists (z :: zs). cbn [ints]. rewrite E. split; [reflexivity|].
    intros y. simpl. rewrite Hz. split; intros [H'|H']; auto.
    + left. now rewrite H'.
    + left. now injection H'.
Qed.

Lemma insert_sorted_In (z x : Z) (l : list Z) :
  In x (insert_sorted z l) <-> x = z \/ In x l.
Proof.
  induction l as [|y l IH]; simpl.
  - intuition.
  - destruct (z <=? y); simpl; [intuition|]. rewrite IH. intuition.
Qed.

Lemma sorted_In (x : Z) (l : list Z) : In x (sorted l) <-> In x l.
Proof.
  unfold sorted. induction l as [|y l IH]; simpl; [tauto|].
  rewrite insert_sorted_In, IH. intuition.
Qed.

Lemma insert_sorted_ordered (z : Z) (l : list Z) :
  ForallOrdPairs Z.le l -> ForallOrdPairs Z.le (insert_sorted z l).
Proof.
  induction 1 as [|y l Hy Hl IH]; simpl.
  - repeat constructor.
  - destruct (z <=? y) eqn:E.
    + apply Z.leb_le in E. constructor; [|now constructor].
      constructor; [assumption|].
      rewrite Forall_forall in *. intros x Hx. specialize (Hy x Hx). lia.
    + apply Z.leb_gt in E. constructor; [|assumption].
      apply Forall_forall. intros x Hx. apply insert_sorted_In in Hx.
      rewrite Forall_forall in Hy. destruct Hx as [->|Hx]; [lia|auto].
Qed.

Lemma sorted_ordered (l : list Z) : ForallOrdPairs Z.le (sorted l).
Proof.
  unfold sorted. induction l as [|y l IH]; simpl; [constructor|].
  now apply insert_sorted_ordered.
Qed.

Lemma last_In (l : list Z) (d : Z) : l <> [] -> In (last l d) l.
Proof.
  induction l as [|a l IH]; [congruence|]. intros _.
  destruct l as [|b l]; [now left|]. right. apply IH. discriminate.
Qed.

Lemma last_of_ordered (l : list Z) (d x : Z) :
  ForallOrdPairs Z.le l -> In x l -> x <= last l d.
Proof.
  induction 1 as [|y l Hy Hl IH]; [contradiction|].
  intros [->|Hx].
  - destruct l as [|y' l']; [simpl; lia|].
    rewrite Forall_forall in Hy. apply Hy.
    apply (last_In (y' :: l') d). discriminate.
  - destruct l as [|y' l']; [contradiction|]. now apply IH.
Qed.

Lemma last_option_In (l : list Z) :
  l <> [] -> exists z, last_option l = Some z /\ In z l.
Proof.
  intros H. destruct l as [|y l]; [congruence|].
  exists (last (y :: l) y). split; [reflexivity|]. now apply last_In.
Qed.

Lemma same_cell_Int (a b : Z) : same_cell (Int a) (Int b) = true <-> a = b.
Proof.
  simpl. unfold Qeq_bool, inject_Z; simpl. rewrite !Z.mul_1_r.
  apply Z.eqb_eq.
Qed.

(** The last option of a select box over an integer column. *)
Lemma opciones_last (cs : list Cell) :
  cs <> [] ->
  (forall c, In c cs -> exists z, c = Int z) ->
  exists zs z,
    opciones cs = Some zs /\ last_option zs = Some z /\
    In (Int z) cs /\ forall y, In (Int y) cs -> y <= z.
Proof.
  intros Hne Hall.
  destruct (ints_all (unique cs)) as [zs [E Hz]].
  { intros c Hc. apply Hall. now apply unique_incl. }
  assert (forall y, In (Int y) cs -> In y (sorted zs)) as Hcov.
  { intros y Hy. apply sorted_In, Hz.
    pose proof (unique_covers cs (Int y) Hy) as H.
    apply existsb_exists in H as [k [Hk Hs]].
    destruct (Hall k (unique_incl _ _ Hk)) as [y' ->].
    apply same_cell_Int in Hs. now subst. }
  assert (sorted zs <> []) as Hs.
  { destruct cs as [|c cs']; [congruence|].
    destruct (Hall c (or_introl eq_refl)) as [y ->].
    intros E0. specialize (Hcov y (or_introl eq_refl)). now rewrite E0 in Hcov. }
  destruct (last_option_In (sorted zs) Hs) as [z [El Hin]].
  exists (sorted zs), z. unfold opciones. rewrite E. split; [reflexivity|].
  split; [assumption|]. split.
  - apply unique_incl, Hz, sorted_In. assumption.
  - intros y Hy. specialize (Hcov y Hy).
    destruct (sorted zs) as [|a l] eqn:Es; [contradiction|].
    injection El as <-. apply (last_of_ordered (a :: l) a y); [|assumption].
    rewrite <- Es. apply sorted_ordered.
Qed.

Lemma isin_unique (c : Cell) (cs : list Cell) :
  In c cs -> isin c (unique cs) = true.
Proof.
  intros H. apply unique_covers, existsb_exists in H as [k [Hk Hs]].
  unfold isin. apply existsb_exists. exists k. split; [assumption|].
  now rewrite same_cell_sym.
Qed.

(** X14.  On a table in which every line has a year and a month, the
    sidebar starts with the latest year, the latest month of that year,
    all centers and all salespeople; that selection matches at least one
    line, so the first page shows a filtered table and no fallback
    warning. *)
Theorem default_selection_matches (df : DataFrame) :
  rows df <> [] ->
  (forall r, In r (rows df) ->
     exists y m, row_get "Ano" r = Int y /\ row_get "Mes" r = Int m) ->
  exists s,
    seleccion_por_defecto df = Some s /\
    (forall r y, In r (rows df) -> row_get "Ano" r = Int y ->
                 y <= año_seleccionado s) /\
    (forall r m, In r (rows df) ->
                 row_get "Ano" r = Int (año_seleccionado s) ->
                 row_get "Mes" r = Int m -> m <= mes_seleccionado s) /\
    centros_seleccionados s = unique (column "Centro" df) /\
    vendedores_seleccionados s = unique (column "Vendedor" df) /\
    rows (coincidencias df s) <> [] /\
    aplicar_filtros df s = ([], coincidencias df s).
Proof.
  intros Hne Hall.
  destruct (opciones_last (column "Ano" df)) as [años [año [Ea [La [Ia Ma]]]]].
  { unfold column. destruct (rows df); [congruence|discriminate]. }
  { intros c Hc. unfold column in Hc. apply in_map_iff in Hc as [r [<- Hr]].
    destruct (Hall r Hr) as [y [m [-> _]]]. eauto. }
  unfold column in Ia. apply in_map_iff in Ia as [r0 [E0 Hr0]].
  set (dfa := select (fun r => eq_cell (row_get "Ano" r) (Int año)) df).
  assert (forall r, In r (rows dfa) <->
                    In r (rows df) /\ row_get "Ano" r = Int año) as Hdfa.
  { intros r. unfold dfa, select. cbn [rows]. rewrite filter_In.
    split; intros [Hr H]; (split; [assumption|]).
    - destruct (Hall r Hr) as [y [m [Ey _]]]. rewrite Ey in *.
      apply same_cell_Int in H. now subst.
    - rewrite H. now apply same_cell_Int. }
  destruct (opciones_last (column "Mes" dfa)) as [meses [mes [Em [Lm [Im Mm]]]]].
  { unfold column. assert (In r0 (rows dfa)) as H by (apply Hdfa; auto).
    destruct (rows dfa); [contradiction|discriminate]. }
  { intros c Hc. unfold column in Hc. apply in_map_iff in Hc as [r [<- Hr]].
    apply Hdfa in Hr as [Hr _]. destruct (Hall r Hr) as [y [m [_ ->]]]. eauto. }
  unfold column in Im. apply in_map_iff in Im as [r1 [E1 Hr1]].
  apply Hdfa in Hr1 as [Hr1 Ey1].
  exists (mkSeleccion año mes (centros_disponibles df) (vendedores_disponibles df)).
  assert (rows (coincidencias df
                  (mkSeleccion año mes (centros_disponibles df)
                               (vendedores_disponibles df))) <> []) as Hmatch.
  { assert (In r1 (rows (coincidencias df
                           (mkSeleccion año mes (centros_disponibles df)
                                        (vendedores_disponibles df))))) as Hin.
    { unfold coincidencias, select. cbn. apply filter_In. split; [assumption|].
      unfold mascara. rewrite Ey1, E1.
      assert (forall a, eq_cell (Int a) (Int a) = true) as Hrefl
        by (intros a; apply (proj2 (same_cell_Int a a) eq_refl)).
      rewrite !Hrefl.
      unfold centros_disponibles, vendedores_disponibles.
      rewrite !isin_unique; [reflexivity| |]; unfold column; now apply in_map. }
    intros E. rewrite E in Hin. contradiction. }
  split.
  { unfold seleccion_por_defecto, años_disponibles, meses_disponibles.
    rewrite Ea, La. fold dfa. now rewrite Em, Lm. }
  cbn [año_seleccionado mes_seleccionado centros_seleccionados
       vendedores_seleccionados].
  split; [|split; [|split; [|split; [|split]]]]; try reflexivity.
  - intros r y Hr Ey. apply Ma. unfold column. rewrite <- Ey. now apply in_map.
  - intros r m Hr Ey Emes. apply Mm. unfold column. rewrite <- Emes.
    apply in_map. apply Hdfa. auto.
  - assumption.
  - destruct (aplicar_filtros_cases df
                (mkSeleccion año mes (centros_disponibles df)
                             (vendedores_disponibles df)))
      as [[He _]|[_ E]]; [contradiction|assumption].
Qed.

Lemma default_selection_matches_witness :
  exists s,
    seleccion_por_defecto (enriquecer Muestra.dos_meses) = Some s /\
    aplicar_filtros (enriquecer Muestra.dos_meses) s
    = ([], coincidencias (enriquecer Muestra.dos_meses) s).
Proof.
  destruct (default_selection_matches (enriquecer Muestra.dos_meses))
    as [s [H1 [_ [_ [_ [_ [_ H2]]]]]]].
  - discriminate.
  - intros r Hr. rewrite rows_enriquecer in Hr.
    apply in_map_iff in Hr as [r0 [<- Hr]].
    destruct Hr as [<-|[<-|[<-|[]]]]; vm_compute; eauto.
  - eauto.
Defined.

(** ** The calendar columns *)

Lemma civil_parts (d : Z) :
  let y := fst (fst (Calendar.civil_from_days d)) in
  let m := snd (fst (Calendar.civil_from_days d)) in
  let dd := snd (Calendar.civil_from_days d) in
  1 <= m <= 12 /\ 1 <= dd <= 31 /\ Calendar.days_from_civil y m dd = d.
Proof.
  unfold Calendar.civil_from_days, Calendar.days_from_civil. cbn [fst snd].
  set (z := d + 719468).
  set (era := z / 146097).
  set (doe := z - era * 146097).
  assert (0 <= doe <= 146096) as Hdoe
    by (subst doe era; Z.div_mod_to_equations; lia).
  assert (d = era * 146097 + doe - 719468) as Hd by (subst doe z; lia).
  clearbody doe. clearbody era. clear z.
  set (yoe := (doe - doe / 1460 + doe / 36524 - doe / 146096) / 365).
  set (doy := doe - (365 * yoe + yoe / 4 - yoe / 100)).
  assert (0 <= yoe <= 399 /\ 0 <= doy <= 365) as [Hyoe Hdoy]
    by (subst doy yoe; Z.div_mod_to_equations; lia).
  assert (doe = doy + 365 * yoe + yoe / 4 - yoe / 100) as Hdoe2
    by (subst doy; lia).
  clearbody doy. clearbody yoe.
  set (mp := (5 * doy + 2) / 153).
  assert (0 <= mp <= 11) as Hmp by (subst mp; Z.div_mod_to_equations; lia).
  set (day := doy - (153 * mp + 2) / 5 + 1).
  assert (1 <= day <= 31) as Hrange
    by (subst day mp; Z.div_mod_to_equations; lia).
  assert ((153 * mp + 2) / 5 + day - 1 = doy) as Hday by (subst day; lia).
  clearbody day. clearbody mp.
  destruct (mp <? 10) eqn:E; [apply Z.ltb_lt in E|apply Z.ltb_ge in E].
  - assert ((mp + 3 <=? 2) = false) as -> by (apply Z.leb_gt; lia).
    assert ((2 <? mp + 3) = true) as -> by (apply Z.ltb_lt; lia).
    replace (mp + 3 - 3) with mp by lia. rewrite Hday.
    repeat split; try lia. Z.div_mod_to_equations; lia.
  - assert ((mp - 9 <=? 2) = true) as -> by (apply Z.leb_le; lia).
    assert ((2 <? mp - 9) = false) as -> by (apply Z.ltb_ge; lia).
    replace (mp - 9 + 9) with mp by lia. rewrite Hday.
    repeat split; try lia. Z.div_mod_to_equations; lia.
Qed.

Lemma day_of_year (d : Z) :
  0 <= d - Calendar.days_from_civil
           (fst (fst (Calendar.civil_from_days d))) 1 1 <= 365.
Proof.
  unfold Calendar.civil_from_days, Calendar.days_from_civil. cbn [fst].
  set (z := d + 719468).
  set (era := z / 146097).
  set (doe := z - era * 146097).
  assert (0 <= doe <= 146096) as Hdoe
    by (subst doe era; Z.div_mod_to_equations; lia).
  assert (d = era * 146097 + doe - 719468) as Hd by (subst doe z; lia).
  clearbody doe. clearbody era. clear z.
  set (yoe := (doe - doe / 1460 + doe / 36524 - doe / 146096) / 365).
  set (doy := doe - (365 * yoe + yoe / 4 - yoe / 100)).
  assert (0 <= yoe <= 399 /\ 0 <= doy <= 365 /\
          (doy = 365 -> yoe mod 4 = 3 /\ (yoe mod 100 <> 99 \/ yoe = 399)))
    as [Hyoe [Hdoy Hleap]]
    by (subst doy yoe; Z.div_mod_to_equations; lia).
  assert (doe = doy + 365 * yoe + yoe / 4 - yoe / 100) as Hdoe2
    by (subst doy; lia).
  clearbody doy. clearbody yoe.
  set (mp := (5 * doy + 2) / 153).
  assert (0 <= mp <= 11 /\ (mp < 10 <-> doy < 306)) as [Hmp Hmp2]
    by (subst mp; Z.div_mod_to_equations; lia).
  clearbody mp.
  change (1 <=? 2) with true. change (2 <? 1) with false. cbv iota.
  destruct (mp <? 10) eqn:E; [apply Z.ltb_lt in E|apply Z.ltb_ge in E].
  - assert ((mp + 3 <=? 2) = false) as -> by (apply Z.leb_gt; lia).
    Z.div_mod_to_equations; lia.
  - assert ((mp - 9 <=? 2) = true) as -> by (apply Z.leb_le; lia).
    Z.div_mod_to_equations; lia.
Qed.

Lemma week_range (ns : Z) : 1 <= Calendar.week ns <= 53.
Proof.
  unfold Calendar.week.
  pose proof (day_of_year (Calendar.days ns - Calendar.weekday ns + 3)) as H.
  Z.div_mod_to_equations; lia.
Qed.

Lemma hour_range (ns : Z) :
  0 <= Calendar.hour ns <= 23 /\
  Calendar.days ns * Calendar.NS_PER_DAY
    + Calendar.hour ns * Calendar.NS_PER_HOUR <= ns
  < Calendar.days ns * Calendar.NS_PER_DAY
    + Calendar.hour ns * Calendar.NS_PER_HOUR + Calendar.NS_PER_HOUR.
Proof.
  unfold Calendar.hour, Calendar.days, Calendar.NS_PER_DAY,
    Calendar.NS_PER_HOUR.
  Z.div_mod_to_equations; lia.
Qed.

Lemma enriquecer_fila_Dia (r : Row) :
  row_get "Dia" (enriquecer_fila r) = dt (fun ns => Int (Calendar.day ns)) r.
Proof. unfold enriquecer_fila. row_lookup. reflexivity. Qed.

Lemma enriquecer_fila_Semana (r : Row) :
  row_get "Semana" (enriquecer_fila r) = dt (fun ns => Int (Calendar.week ns)) r.
Proof. unfold enriquecer_fila. row_lookup. reflexivity. Qed.

Lemma enriquecer_fila_Hora (r : Row) :
  row_get "Hora" (enriquecer_fila r) = dt (fun ns => Int (Calendar.hour ns)) r.
Proof. unfold enriquecer_fila. row_lookup. reflexivity. Qed.



(** ** Grouping in general *)

Section AgruparProps.

Context {K : Type}.
Variable same : K -> K -> bool.
Variable present : K -> bool.
Hypothesis same_refl : forall a, same a a = true.
Hypothesis same_sym : forall a b, same a b = same b a.
Hypothesis same_trans :
  forall a b c, same a b = true -> same b c = true -> same a c = true.
Hypothesis same_present : forall a b, same a b = true -> present a = present b.

Lemma unique_by_incl (ks : list K) (k : K) :
  In k (unique_by same ks) -> In k ks.
Proof.
  revert k. induction ks as [|a ks IH]; intros k; simpl; [tauto|].
  intros [->|H]; [now left|]. right. apply IH. now apply filter_In in H.
Qed.

Lemma unique_by_covers (ks : list K) (k : K) :
  In k ks -> existsb (fun u => same u k) (unique_by same ks) = true.
Proof.
  induction ks as [|a ks IH]; simpl; [tauto|].
  intros [->|H].
  - now rewrite same_refl.
  - destruct (same a k) eqn:E; [reflexivity|]. simpl.
    specialize (IH H). apply existsb_exists in IH as [u [Hu Hs]].
    apply existsb_exists. exists u. split; [|assumption].
    apply filter_In. split; [assumption|].
    destruct (same a u) eqn:E'; [|reflexivity].
    rewrite (same_trans a u k E' Hs) in E. discriminate.
Qed.

Lemma unique_by_distinct (ks : list K) :
  ForallOrdPairs (fun a b => same a b = false) (unique_by same ks).
Proof.
  induction ks as [|a ks IH]; simpl; constructor.
  - apply Forall_forall. intros x Hx. apply filter_In in Hx as [_ Hx].
    now apply negb_true_iff.
  - now apply ForallOrdPairs_filter.
Qed.

Lemma group_sums_total_by (key : Row -> K) (g : Row -> Cell) (l : list Row)
    (ks : list K) :
  ForallOrdPairs (fun a b => same a b = false) ks ->
  (sum (map (fun k => Num (sum (map g (filter (fun r => same k (key r)) l)))) ks)
   == sum (map g (filter (fun r => existsb (fun k => same k (key r)) ks) l)))%Q.
Proof.
  induction 1 as [|k ks Hk Hks IH].
  - simpl. induction l as [|a l IHl]; simpl; [reflexivity|exact IHl].
  - cbn [map existsb]. rewrite sum_cons, IH. cbn [valor num_of].
    symmetry. apply sum_filter_or.
    intros r _ H1 H2. apply existsb_exists in H2 as [k' [Hin H2]].
    rewrite Forall_forall in Hk. specialize (Hk k' Hin).
    rewrite same_sym in H2.
    rewrite (same_trans k (key r) k' H1 H2) in Hk. discriminate.
Qed.

Lemma keys_cover_by (key : Row -> K) (l : list Row) (r : Row) :
  In r l ->
  existsb (fun k => same k (key r))
          (unique_by same (filter present (map key l)))
  = present (key r).
Proof.
  intros Hin. destruct (present (key r)) eqn:E.
  - apply unique_by_covers. apply filter_In. split; [|assumption].
    now apply in_map.
  - apply not_true_is_false. intros H.
    apply existsb_exists in H as [k [Hk Hs]].
    apply unique_by_incl, filter_In in Hk as [_ Hk].
    apply same_present in Hs. congruence.
Qed.

(** The sums of the groups add up to the sum over the rows with a key. *)
Lemma group_by_sums (key : Row -> K) (g : Row -> Cell) (l : list Row) :
  (sum (map (fun grp : K * list Row => Num (sum (map g (snd grp))))
            (group_by same key present l))
   == sum (map g (filter (fun r => present (key r)) l)))%Q.
Proof.
  unfold group_by. rewrite map_map. cbn [snd].
  rewrite (group_sums_total_by key g l) by apply unique_by_distinct.
  rewrite (filter_ext_in _ (fun r => present (key r))); [reflexivity|].
  intros r Hr. now apply keys_cover_by.
Qed.

(** A group has a present key, holds the rows under that key, and is the
    group of one of its own rows. *)
Lemma group_by_group (key : Row -> K) (l : list Row) (k : K) (grp : list Row) :
  In (k, grp) (group_by same key present l) ->
  present k = true /\
  grp = filter (fun r => same k (key r)) l /\
  exists r, In r l /\ key r = k /\ In r grp.
Proof.
  unfold group_by. intros H. apply in_map_iff in H as [k' [E Hk]].
  injection E as -> <-.
  apply unique_by_incl, filter_In in Hk as [Hk Hp].
  split; [assumption|]. split; [reflexivity|].
  apply in_map_iff in Hk as [r [<- Hr]].
  exists r. repeat split; [assumption|].
  apply filter_In. split; [assumption|apply same_refl].
Qed.

(** Every row with a present key is in the group of its key. *)
Lemma group_by_covers (key : Row -> K) (l : list Row) (r : Row) :
  In r l -> present (key r) = true ->
  exists k grp, In (k, grp) (group_by same key present l) /\
                same k (key r) = true /\ In r grp.
Proof.
  intros Hr Hp. pose proof (keys_cover_by key l r Hr) as H.
  rewrite Hp in H. apply existsb_exists in H as [k [Hk Hs]].
  exists k, (filter (fun r0 => same k (key r0)) l). split; [|split].
  - unfold group_by. apply in_map_iff. exists k. auto.
  - assumption.
  - apply filter_In. auto.
Qed.

End AgruparProps.

Lemma same_keys_refl (a : list Cell) : same_keys a a = true.
Proof.
  induction a as [|x a IH]; simpl; [reflexivity|].
  now rewrite same_cell_refl, IH.
Qed.

Lemma same_keys_sym (a b : list Cell) : same_keys a b = same_keys b a.
Proof.
  revert b. induction a as [|x a IH]; intros [|y b]; simpl; try reflexivity.
  now rewrite same_cell_sym, IH.
Qed.

Lemma same_keys_trans (a b c : list Cell) :
  same_keys a b = true -> same_keys b c = true -> same_keys a c = true.
Proof.
  revert b c. induction a as [|x a IH]; intros [|y b] [|z c]; simpl;
    try discriminate; try reflexivity.
  rewrite !andb_true_iff. intros [H1 H2] [H3 H4]. split.
  - now apply (same_cell_trans x y z).
  - now apply (IH b c).
Qed.

Lemma same_keys_present (a b : list Cell) :
  same_keys a b = true -> forallb notna a = forallb notna b.
Proof.
  revert b. induction a as [|x a IH]; intros [|y b]; simpl;
    try discriminate; try reflexivity.
  rewrite andb_true_iff. intros [H1 H2].
  now rewrite (same_cell_notna x y H1), (IH b H2).
Qed.

(** ** The drill-down tabs *)

Lemma eq_cell_same (a b : Cell) : eq_cell a b = notna a && same_cell a b.
Proof. destruct a, b; reflexivity. Qed.

Lemma firstn_incl {A : Type} (n : nat) (l : list A) (x : A) :
  In x (firstn n l) -> In x l.
Proof.
  intros H. rewrite <- (firstn_skipn n l). apply in_or_app. now left.
Qed.

Lemma firstn_nonempty {A : Type} (n : nat) (l : list A) :
  l <> [] -> firstn (S n) l <> [].
Proof. destruct l; [congruence|discriminate]. Qed.

Lemma column_nonempty (c : string) (df : DataFrame) :
  rows df <> [] -> column c df <> [].
Proof. unfold column. destruct (rows df); [congruence|discriminate]. Qed.

Lemma isin_self (c : Cell) (cs : list Cell) : In c cs -> isin c cs = true.
Proof.
  intros H. unfold isin. apply existsb_exists. exists c.
  split; [assumption|apply same_cell_refl].
Qed.

(** Each of the first [n] values of a column has a line in the selection
    made with them. *)
Lemma preselected_have_lines (col : string) (n : nat) (df : DataFrame) (c : Cell) :
  In c (firstn n (unique (column col df))) ->
  exists r,
    In r (rows (select (fun r => isin (row_get col r)
                                      (firstn n (unique (column col df)))) df))
    /\ row_get col r = c.
Proof.
  intros Hc. pose proof (unique_incl _ _ (firstn_incl _ _ _ Hc)) as Hin.
  unfold column in Hin. apply in_map_iff in Hin as [r [E Hr]].
  exists r. split; [|assumption].
  unfold select. cbn [rows]. apply filter_In. split; [assumption|].
  rewrite E. now apply isin_self.
Qed.

(** A value offered by a select box over a column, chosen there, selects
    at least one line unless it is the missing value. *)
Lemma chosen_has_lines (col : string) (df : DataFrame) (c : Cell) :
  In c (column col df) ->
  (c <> NaN ->
   exists r, In r (rows (select (fun r => eq_cell (row_get col r) c) df)) /\
             row_get col r = c) /\
  (c = NaN -> rows (select (fun r => eq_cell (row_get col r) c) df) = []).
Proof.
  intros Hc. split.
  - intros Hn. unfold column in Hc. apply in_map_iff in Hc as [r [E Hr]].
    exists r. split; [|assumption]. unfold select. cbn [rows].
    apply filter_In. split; [assumption|].
    rewrite E, eq_cell_same, same_cell_refl. now destruct c.
  - intros ->. unfold select. cbn [rows].
    induction (rows df) as [|a l IH]; [reflexivity|]. simpl.
    now destruct (row_get col a).
Qed.

(** X16.  Tab 3.  Without a customer the tab warns and the script stops.
    At most three customers are preselected, all from the table; on a
    non-empty [df_filtrado] there is at least one, so the tab goes on, and
    each preselected customer has a line in [df_clientes].  A customer
    picked in the detail box among the names of [df_clientes] has at least
    one line in [df_cliente]; only the missing name, when it is offered,
    gives an empty detail.  The lines of [df_cliente] are lines of
    [df_clientes], and those are lines of [df_filtrado]. *)
Theorem customer_drill_down (df_filtrado : DataFrame) :
  df_clientes df_filtrado []
    = ([Warning "⚠️ Por favor seleccione al menos un cliente."], None) /\
  (List.length (clientes_por_defecto df_filtrado) <= 3)%nat /\
  (rows df_filtrado <> [] ->
   exists dc,
     df_clientes df_filtrado (clientes_por_defecto df_filtrado)
       = ([], Some dc) /\
     forall c, In c (clientes_por_defecto df_filtrado) ->
               exists r, In r (rows dc) /\ row_get "Nombre Cliente" r = c) /\
  (forall seleccion dc,
     df_clientes df_filtrado seleccion = ([], Some dc) ->
     (forall r, In r (rows dc) <->
                In r (rows df_filtrado) /\
                isin (row_get "Nombre Cliente" r) seleccion = true) /\
     forall cliente,
       In cliente (clientes_disponibles dc) ->
       (forall r, In r (rows (df_cliente dc cliente)) -> In r (rows dc)) /\
       (cliente <> NaN -> rows (df_cliente dc cliente) <> []) /\
       (cliente = NaN -> rows (df_cliente dc cliente) = [])).
Proof.
  split; [reflexivity|]. split; [apply firstn_le_length|]. split.
  - intros Hne.
    assert (clientes_por_defecto df_filtrado <> []) as Hd.
    { apply firstn_nonempty, unique_nonempty. now apply column_nonempty. }
    unfold df_clientes.
    destruct (clientes_por_defecto df_filtrado) as [|c0 cs] eqn:E;
      [congruence|].
    eexists. split; [reflexivity|]. rewrite <- E.
    intros c Hc. now apply preselected_have_lines.
  - intros seleccion dc H. unfold df_clientes in H.
    destruct seleccion as [|c0 cs]; [discriminate|].
    injection H as <-. split.
    + intros r. unfold select. cbn [rows]. apply filter_In.
    + intros cliente Hc.
      apply unique_incl in Hc.
      destruct (chosen_has_lines "Nombre Cliente" _ cliente Hc) as [H1 H2].
      split; [|split].
      * intros r Hr. unfold df_cliente, select in Hr. cbn [rows] in Hr.
        now apply filter_In in Hr.
      * intros Hn. destruct (H1 Hn) as [r [Hr _]]. unfold df_cliente.
        intros E. rewrite E in Hr. contradiction.
      * exact H2.
Qed.

Lemma customer_drill_down_witness :
  exists dc,
    df_clientes (enriquecer Muestra.dos_meses)
                (clientes_por_defecto (enriquecer Muestra.dos_meses))
    = ([], Some dc).
Proof.
  destruct (customer_drill_down (enriquecer Muestra.dos_meses))
    as [_ [_ [H _]]].
  destruct H as [dc [H _]]; [|eauto].
  rewrite rows_enriquecer. discriminate.
Defined.

(** X17.  Tab 4.  Without a product the script stops.  At most two products
    are preselected, and on a non-empty table there is at least one, each
    with a line in [df_productos].  The search runs on the whole table:
    every line of [df] with a searched product is in [df_productos], the
    lines of [df_filtrado] among them, whatever the sidebar selects.  A
    searched product taken from the options has at least one line in
    [df_producto], unless it is the missing name. *)
Theorem product_search (df : DataFrame) :
  df_productos df [] = None /\
  (List.length (productos_por_defecto df) <= 2)%nat /\
  (rows df <> [] ->
   exists dp,
     df_productos df (productos_por_defecto df) = Some dp /\
     forall p, In p (productos_por_defecto df) ->
               exists r, In r (rows dp) /\ row_get "Nombre Producto" r = p) /\
  (forall buscar dp,
     df_productos df buscar = Some dp ->
     (forall r, In r (rows dp) <->
                In r (rows df) /\
                isin (row_get "Nombre Producto" r) buscar = true) /\
     (forall s r, In r (rows (snd (aplicar_filtros df s))) ->
                  isin (row_get "Nombre Producto" r) buscar = true ->
                  In r (rows dp)) /\
     forall producto,
       In producto buscar -> In producto (productos_disponibles df) ->
       (producto <> NaN -> rows (df_producto dp producto) <> []) /\
       (producto = NaN -> rows (df_producto dp producto) = [])).
Proof.
  split; [reflexivity|]. split; [apply firstn_le_length|]. split.
  - intros Hne.
    assert (productos_por_defecto df <> []) as Hd.
    { apply firstn_nonempty, unique_nonempty. now apply column_nonempty. }
    unfold df_productos.
    destruct (productos_por_defecto df) as [|c0 cs] eqn:E; [congruence|].
    eexists. split; [reflexivity|]. rewrite <- E.
    intros c Hc. now apply preselected_have_lines.
  - intros buscar dp H.
    assert (dp = select (fun r => isin (row_get "Nombre Producto" r) buscar) df)
      as ->.
    { unfold df_productos in H. destruct buscar; [discriminate|].
      now injection H. }
    clear H.
    assert (forall r,
              In r (rows (select (fun r => isin (row_get "Nombre Producto" r)
                                                buscar) df)) <->
              In r (rows df) /\
              isin (row_get "Nombre Producto" r) buscar = true) as Hrows
      by (intros r; unfold select; cbn [rows]; apply filter_In).
    split; [exact Hrows|]. split.
    + intros s r Hr Hp. apply Hrows. split; [|assumption].
      destruct (aplicar_filtros_cases df s) as [[_ E]|[_ E]];
        rewrite E in Hr; cbn [snd] in Hr; [assumption|].
      unfold coincidencias, select in Hr. cbn [rows] in Hr.
      now apply filter_In in Hr.
    + intros producto Hb Hopt. apply unique_incl in Hopt.
      unfold column in Hopt. apply in_map_iff in Hopt as [r [E Hr]].
      split.
      * intros Hn.
        assert (In r (rows (df_producto
                              (select (fun r => isin (row_get "Nombre Producto" r)
                                                     buscar) df)
                              producto))) as Hin.
        { unfold df_producto, select. cbn [rows].
          apply filter_In. split.
          - apply filter_In. split; [assumption|]. rewrite E.
            now apply isin_self.
          - rewrite E, eq_cell_same, same_cell_refl. now destruct producto. }
        intros E0. rewrite E0 in Hin. contradiction.
      * intros ->. unfold df_producto, select. cbn [rows].
        induction (filter _ (rows df)) as [|a l IH]; [reflexivity|]. simpl.
        now destruct (row_get "Nombre Producto" a).
Qed.

Lemma product_search_witness :
  exists dp,
    df_productos (enriquecer Muestra.dos_meses)
                 (productos_por_defecto (enriquecer Muestra.dos_meses))
    = Some dp.
Proof.
  destruct (product_search (enriquecer Muestra.dos_meses)) as [_ [_ [H _]]].
  destruct H as [dp [H _]]; [|eauto].
  rewrite rows_enriquecer. discriminate.
Defined.

(** ** Tables of the drill-down tabs *)

Lemma groupby_cols_sums (keys : list string) (col : string) (df : DataFrame) :
  (sum (map (fun g : list Cell * list Row => Num (sum (map (row_get col) (snd g))))
            (groupby_cols keys df))
   == sum (column col (select (fun r => forallb notna (row_key keys r)) df)))%Q.
Proof.
  unfold groupby_cols, column, select. cbn [rows].
  apply (group_by_sums same_keys (forallb notna) same_keys_refl same_keys_sym
           same_keys_trans same_keys_present).
Qed.

Lemma groupby_key_sums (key : Row -> Cell) (col : string) (df : DataFrame) :
  (sum (map (fun g : Cell * list Row => Num (sum (map (row_get col) (snd g))))
            (groupby_key key df))
   == sum (column col (select (fun r => notna (key r)) df)))%Q.
Proof.
  unfold groupby_key, column, select. cbn [rows].
  apply (group_by_sums same_cell notna same_cell_refl same_cell_sym
           same_cell_trans same_cell_notna).
Qed.

Lemma groupby_cols_two (k1 k2 : string) (df : DataFrame) (k : list Cell)
    (grp : list Row) :
  In (k, grp) (groupby_cols [k1; k2] df) ->
  exists r, In r (rows df) /\ In r grp /\
            k = [row_get k1 r; row_get k2 r] /\
            row_get k1 r <> NaN /\ row_get k2 r <> NaN /\
            grp = filter (fun r0 => same_keys k (row_key [k1; k2] r0)) (rows df).
Proof.
  intros H. unfold groupby_cols in H.
  apply (group_by_group same_keys (forallb notna) same_keys_refl) in H
    as [Hp [Eg [r [Hr [Ek Hin]]]]].
  exists r. repeat split; try assumption.
  - now rewrite <- Ek.
  - rewrite <- Ek in Hp. simpl in Hp. intros E. rewrite E in Hp. discriminate.
  - rewrite <- Ek in Hp. simpl in Hp. intros E. rewrite E in Hp.
    rewrite andb_false_r in Hp. discriminate.
Qed.

Lemma column_of_groups (name : string) (make : list Cell * list Row -> Row)
    (value : list Cell * list Row -> Cell) (groups : list (list Cell * list Row)) :
  (forall g, In g groups -> row_get name (make g) = value g) ->
  map (row_get name) (map make groups) = map value groups.
Proof. intros H. rewrite map_map. now apply map_ext_in. Qed.



Lemma fechas_In (cs : list Cell) (ns : Z) : In ns (fechas cs) <-> In (Date ns) cs.
Proof.
  induction cs as [|c cs IH]; simpl; [tauto|].
  destruct c; simpl; rewrite IH; split; intros H; auto;
    try (destruct H as [H|H]; [discriminate|assumption]).
  - destruct H as [->|H]; auto.
  - destruct H as [H|H]; [injection H as ->|]; auto.
Qed.

Lemma fold_min (d : Z) (ds : list Z) :
  In (fold_right Z.min d ds) (d :: ds) /\
  forall x, In x (d :: ds) -> fold_right Z.min d ds <= x.
Proof.
  induction ds as [|a ds [IH1 IH2]]; simpl.
  - split; [now left|]. intros x [->|[]]. lia.
  - split.
    + destruct (Z.min_spec a (fold_right Z.min d ds)) as [[_ ->]|[_ ->]];
        [right; now left|].
      destruct IH1 as [H|H]; [now left|right; now right].
    + intros x [->|[->|H]].
      * specialize (IH2 x (or_introl eq_refl)). lia.
      * lia.
      * specialize (IH2 x (or_intror H)). lia.
Qed.

Lemma fold_max (d : Z) (ds : list Z) :
  In (fold_right Z.max d ds) (d :: ds) /\
  forall x, In x (d :: ds) -> x <= fold_right Z.max d ds.
Proof.
  induction ds as [|a ds [IH1 IH2]]; simpl.
  - split; [now left|]. intros x [->|[]]. lia.
  - split.
    + destruct (Z.max_spec a (fold_right Z.max d ds)) as [[_ ->]|[_ ->]];
        [|right; now left].
      destruct IH1 as [H|H]; [now left|right; now right].
    + intros x [->|[->|H]].
      * specialize (IH2 x (or_introl eq_refl)). lia.
      * lia.
      * specialize (IH2 x (or_intror H)). lia.
Qed.

(** The earliest and the latest timestamp of a series that has one. *)
Lemma serie_min_max (cs : list Cell) (ns : Z) :
  In (Date ns) cs ->
  exists a b,
    serie_min cs = Date a /\ serie_max cs = Date b /\ a <= ns <= b /\
    In (Date a) cs /\ In (Date b) cs.
Proof.
  intros H. apply fechas_In in H. unfold serie_min, serie_max.
  pose proof (fechas_In cs) as Hf.
  destruct (fechas cs) as [|d ds]; [contradiction|].
  destruct (fold_min d ds) as [Hm1 Hm2]. destruct (fold_max d ds) as [HM1 HM2].
  exists (fold_right Z.min d ds), (fold_right Z.max d ds).
  repeat split; auto; now apply Hf.
Qed.

Lemma serie_min_max_none (cs : list Cell) :
  (forall ns, ~ In (Date ns) cs) -> serie_min cs = NaN /\ serie_max cs = NaN.
Proof.
  intros H. unfold serie_min, serie_max. pose proof (fechas_In cs) as Hf.
  destruct (fechas cs) as [|d ds]; [auto|].
  exfalso. apply (H d), Hf. now left.
Qed.

(** X19.  In the customer summary, the row of a customer shows as first and
    last order the earliest and the latest order date among that
    customer's lines: every dated line of the customer lies between them
    and each of the two is the date of one of the customer's lines.  The
    same holds for first and last sale in the product summary. *)
Theorem first_and_last_order (d : DataFrame) (r : Row) (ns : Z) :
  In r (rows d) -> row_get "Fecha Pedido" r = Date ns ->
  (row_get "Codigo Cliente" r <> NaN -> row_get "Nombre Cliente" r <> NaN ->
   exists fila a b r1 r2,
     In fila (rows (resumen_clientes d)) /\
     same_cell (row_get "Codigo Cliente" fila) (row_get "Codigo Cliente" r) = true /\
     same_cell (row_get "Nombre Cliente" fila) (row_get "Nombre Cliente" r) = true /\
     row_get "Fecha Pedido min" fila = Date a /\
     row_get "Fecha Pedido max" fila = Date b /\
     a <= ns <= b /\
     In r1 (rows d) /\ row_get "Fecha Pedido" r1 = Date a /\
     same_keys (row_key ["Codigo Cliente"; "Nombre Cliente"] r1)
               (row_key ["Codigo Cliente"; "Nombre Cliente"] r) = true /\
     In r2 (rows d) /\ row_get "Fecha Pedido" r2 = Date b /\
     same_keys (row_key ["Codigo Cliente"; "Nombre Cliente"] r2)
               (row_key ["Codigo Cliente"; "Nombre Cliente"] r) = true) /\
  (row_get "Codigo Producto" r <> NaN -> row_get "Nombre Producto" r <> NaN ->
   exists fila a b r1 r2,
     In fila (rows (resumen_productos d)) /\
     same_cell (row_get "Codigo Producto" fila) (row_get "Codigo Producto" r) = true /\
     same_cell (row_get "Nombre Producto" fila) (row_get "Nombre Producto" r) = true /\
     row_get "Fecha Pedido min" fila = Date a /\
     row_get "Fecha Pedido max" fila = Date b /\
     a <= ns <= b /\
     In r1 (rows d) /\ row_get "Fecha Pedido" r1 = Date a /\
     same_keys (row_key ["Codigo Producto"; "Nombre Producto"] r1)
               (row_key ["Codigo Producto"; "Nombre Producto"] r) = true /\
     In r2 (rows d) /\ row_get "Fecha Pedido" r2 = Date b /\
     same_keys (row_key ["Codigo Producto"; "Nombre Producto"] r2)
               (row_key ["Codigo Producto"; "Nombre Producto"] r) = true).
Proof.
  intros Hr Hd.
  assert (forall k1 k2 : string,
            row_get k1 r <> NaN -> row_get k2 r <> NaN ->
            exists x y grp a b r1 r2,
              In ([x; y], grp) (groupby_cols [k1; k2] d) /\
              same_cell x (row_get k1 r) = true /\
              same_cell y (row_get k2 r) = true /\
              serie_min (map (row_get "Fecha Pedido") grp) = Date a /\
              serie_max (map (row_get "Fecha Pedido") grp) = Date b /\
              a <= ns <= b /\
              In r1 (rows d) /\ row_get "Fecha Pedido" r1 = Date a /\
              same_keys (row_key [k1; k2] r1) (row_key [k1; k2] r) = true /\
              In r2 (rows d) /\ row_get "Fecha Pedido" r2 = Date b /\
              same_keys (row_key [k1; k2] r2) (row_key [k1; k2] r) = true)
    as Hgen.
  { intros k1 k2 H1 H2.
    destruct (group_by_covers same_keys (forallb notna) same_keys_refl
                same_keys_trans same_keys_present (row_key [k1; k2]) (rows d) r Hr)
      as [k [grp [Hg [Hs Hin]]]].
    { simpl. destruct (row_get k1 r); [contradiction| | | | |];
        destruct (row_get k2 r); try contradiction; reflexivity. }
    fold (groupby_cols [k1; k2] d) in Hg.
    destruct (groupby_cols_two k1 k2 d k grp Hg) as [r0 [_ [_ [Ek [_ [_ Eg]]]]]].
    destruct (serie_min_max (map (row_get "Fecha Pedido") grp) ns)
      as [a [b [Ea [Eb [Hab [Ha Hb]]]]]].
    { rewrite <- Hd. now apply in_map. }
    apply in_map_iff in Ha as [r1 [E1 Hr1]].
    apply in_map_iff in Hb as [r2 [E2 Hr2]].
    rewrite Eg in Hr1, Hr2. apply filter_In in Hr1 as [Hr1 Hs1].
    apply filter_In in Hr2 as [Hr2 Hs2].
    assert (forall q, same_keys k (row_key [k1; k2] q) = true ->
                      same_keys (row_key [k1; k2] q) (row_key [k1; k2] r) = true)
      as Hsame.
    { intros q Hq. rewrite same_keys_sym in Hq.
      now apply (same_keys_trans _ k _). }
    subst k. simpl in Hs. rewrite andb_true_r in Hs.
    apply andb_true_iff in Hs as [Hs1' Hs2'].
    exists (row_get k1 r0), (row_get k2 r0), grp, a, b, r1, r2.
    repeat split; auto; lia. }
  split; intros H1 H2.
  - destruct (Hgen "Codigo Cliente" "Nombre Cliente" H1 H2)
      as [x [y [grp [a [b [r1 [r2 [Hg [Hx [Hy [Ea [Eb H]]]]]]]]]]]].
    eexists. exists a, b, r1, r2. split.
    + unfold resumen_clientes. cbn [rows]. apply in_map_iff.
      exists ([x; y], grp). split; [reflexivity|exact Hg].
    + repeat split; try apply H; assumption.
  - destruct (Hgen "Codigo Producto" "Nombre Producto" H1 H2)
      as [x [y [grp [a [b [r1 [r2 [Hg [Hx [Hy [Ea [Eb H]]]]]]]]]]]].
    eexists. exists a, b, r1, r2. split.
    + unfold resumen_productos. cbn [rows]. apply in_map_iff.
      exists ([x; y], grp). split; [reflexivity|exact Hg].
    + repeat split; try apply H; assumption.
Qed.

Lemma first_and_last_order_witness :
  exists fila a b,
    In fila (rows (resumen_clientes (enriquecer Muestra.dos_meses))) /\
    row_get "Fecha Pedido min" fila = Date a /\
    row_get "Fecha Pedido max" fila = Date b /\
    a <= Ejemplo.marzo_15 <= b.
Proof.
  destruct (first_and_last_order (enriquecer Muestra.dos_meses)
              (enriquecer_fila
                 (Ejemplo.fila "A" (Date Ejemplo.marzo_15) 1001 (Int 2)))
              Ejemplo.marzo_15) as [H _].
  - rewrite rows_enriquecer. apply in_map. right. left. reflexivity.
  - reflexivity.
  - destruct H as [fila [a [b [r1 [r2 [H1 [_ [_ [H2 [H3 [H4 _]]]]]]]]]]].
    + vm_compute. discriminate.
    + vm_compute. discriminate.
    + exists fila, a, b. auto.
Defined.

(** ** Where the script stops *)



(** ** Distinct counts of a part and of the whole *)

Lemma filter_swap {A : Type} (f g : A -> bool) (l : list A) :
  filter f (filter g l) = filter g (filter f l).
Proof.
  induction l as [|x l IH]; [reflexivity|]. simpl.
  destruct (f x) eqn:Ef, (g x) eqn:Eg; simpl; rewrite ?Ef, ?Eg, IH;
    reflexivity.
Qed.

Lemma filter_unique (a : Cell) (l : list Cell) :
  filter (fun d => negb (same_cell a d)) (unique l)
  = unique (filter (fun d => negb (same_cell a d)) l).
Proof.
  induction l as [|c l IH]; [reflexivity|]. cbn [unique filter].
  destruct (same_cell a c) eqn:E; cbn [negb unique].
  - rewrite <- IH. clear IH.
    induction (unique l) as [|u us IHu]; [reflexivity|]. cbn [filter].
    destruct (same_cell c u) eqn:Ecu; cbn [negb filter].
    + rewrite (same_cell_trans a c u E Ecu). exact IHu.
    + destruct (same_cell a u); cbn [negb]; now rewrite IHu.
  - rewrite <- IH. f_equal. apply filter_swap.
Qed.

Lemma length_without_class (a : Cell) (l : list Cell) :
  ForallOrdPairs differ l ->
  (exists u, In u l /\ same_cell a u = true) ->
  List.length l = S (List.length (filter (fun d => negb (same_cell a d)) l)).
Proof.
  induction 1 as [|u l Hu Hl IH]; intros [x [Hx Hs]]; [contradiction|].
  cbn [filter]. destruct (same_cell a u) eqn:E; cbn [negb List.length].
  - f_equal. rewrite filter_all; [reflexivity|].
    intros y Hy. rewrite Forall_forall in Hu. specialize (Hu y Hy).
    unfold differ in Hu. apply negb_true_iff.
    destruct (same_cell a y) eqn:Ey; [|reflexivity].
    rewrite same_cell_sym in E.
    rewrite (same_cell_trans u a y E Ey) in Hu. discriminate.
  - f_equal. apply IH. destruct Hx as [->|Hx]; [congruence|eauto].
Qed.

Lemma length_unique_mono (n : nat) :
  forall A B : list Cell,
    (List.length A <= n)%nat ->
    (forall a, In a A -> exists b, In b B /\ same_cell a b = true) ->
    (List.length (unique A) <= List.length (unique B))%nat.
Proof.
  induction n as [|n IH]; intros A B Hn Hcov.
  - destruct A; [simpl; lia|simpl in Hn; lia].
  - destruct A as [|a A1]; [simpl; lia|]. cbn [unique List.length].
    rewrite filter_unique.
    destruct (Hcov a (or_introl eq_refl)) as [b [Hb Hab]].
    rewrite (length_without_class a (unique B) (unique_distinct B)).
    + rewrite filter_unique. apply le_n_S. apply IH.
      * pose proof (length_filter_le (fun d => negb (same_cell a d)) A1).
        simpl in Hn. lia.
      * intros x Hx. apply filter_In in Hx as [Hx Hax].
        apply negb_true_iff in Hax.
        destruct (Hcov x (or_intror Hx)) as [y [Hy Hxy]].
        exists y. split; [|assumption]. apply filter_In. split; [assumption|].
        apply negb_true_iff. destruct (same_cell a y) eqn:E; [|reflexivity].
        rewrite same_cell_sym in Hxy.
        rewrite (same_cell_trans a y x E Hxy) in Hax. discriminate.
    + pose proof (unique_covers B b Hb) as H.
      apply existsb_exists in H as [u [Hu Hub]].
      exists u. split; [assumption|].
      rewrite same_cell_sym in Hub. now apply (same_cell_trans a b u).
Qed.

Lemma nunique_mono (A B : list Cell) :
  (forall a, In a A -> a <> NaN -> In a B) -> nunique A <= nunique B.
Proof.
  intros H. unfold nunique. apply inj_le.
  apply (length_unique_mono (List.length (filter notna A))); [lia|].
  intros a Ha. apply filter_In in Ha as [Ha Hn].
  exists a. split; [|apply same_cell_refl].
  apply filter_In. split; [|assumption].
  apply H; [assumption|]. intros ->. discriminate.
Qed.

(** X21.  No salesperson has more distinct orders than the table, nor more
    distinct days than [dias_habiles]; so the monthly target is at least
    the daily target times the days any salesperson worked. *)
Theorem salesperson_counts_are_bounded (objetivo : positive) (df : DataFrame)
    (pv : PedidosVendedor) :
  In pv (pedidos_vendedor objetivo df) ->
  Pedido pv <= pedidos_totales df /\
  Dia pv <= dias_habiles df /\
  Z.pos objetivo * Dia pv <= objetivo_mensual objetivo df /\
  Desviacion pv = Pedido pv - objetivo_mensual objetivo df.
Proof.
  intros Hpv. unfold pedidos_vendedor in Hpv.
  apply in_map_iff in Hpv as [[k g] [<- Hg]]. cbn [Pedido Dia Desviacion].
  apply groupby_group in Hg as [_ [_ [Eg _]]].
  assert (forall col, nunique (map (row_get col) g) <= nunique (column col df))
    as Hle.
  { intros col. apply nunique_mono. intros a Ha _.
    apply in_map_iff in Ha as [r [<- Hr]]. rewrite Eg in Hr.
    apply filter_In in Hr as [Hr _]. unfold column. now apply in_map. }
  pose proof (Hle "Pedido") as H1. pose proof (Hle "Dia") as H2.
  unfold pedidos_totales, dias_habiles, objetivo_mensual, dias_habiles.
  repeat split; try assumption. nia.
Qed.

Lemma salesperson_counts_are_bounded_witness :
  Forall (fun pv => Dia pv <= dias_habiles (enriquecer Muestra.dos_meses))
         (pedidos_vendedor 45 (enriquecer Muestra.dos_meses)).
Proof.
  apply Forall_forall. intros pv Hpv.
  apply (salesperson_counts_are_bounded 45 (enriquecer Muestra.dos_meses) pv Hpv).
Defined.

(** ** The dates of the sidebar footer *)

(** X22.  Whenever the date column is a datetime column, the two dates of
    the sidebar footer exist, so the end of the enrichment block raises
    nothing: they are the earliest and the latest order date of the whole
    table, written day/month/year, every order date lies between them, and
    enrichment does not change them. *)
Theorem footer_dates (d : DataFrame) :
  is_datetime (column "Fecha Pedido" d) = true ->
  exists a b,
    fecha_min d = Some (strftime_dmy a) /\
    fecha_max d = Some (strftime_dmy b) /\
    fecha_min (enriquecer d) = fecha_min d /\
    fecha_max (enriquecer d) = fecha_max d /\
    (forall r ns, In r (rows d) -> row_get "Fecha Pedido" r = Date ns ->
                  a <= ns <= b) /\
    (exists r, In r (rows d) /\ row_get "Fecha Pedido" r = Date a) /\
    (exists r, In r (rows d) /\ row_get "Fecha Pedido" r = Date b).
Proof.
  intros H. unfold is_datetime in H. apply andb_true_iff in H as [_ H].
  apply existsb_exists in H as [c [Hc Hd]].
  destruct c; try discriminate. clear Hd.
  destruct (serie_min_max _ ns Hc) as [a [b [Ea [Eb [_ [Ha Hb]]]]]].
  exists a, b.
  assert (column "Fecha Pedido" (enriquecer d) = column "Fecha Pedido" d) as Ecol.
  { unfold column. rewrite rows_enriquecer, map_map. apply map_ext.
    intros r. apply enriquecer_fila_other. simpl. intros F.
    repeat (destruct F as [F|F]; [discriminate|]). exact F. }
  unfold fecha_min, fecha_max. rewrite Ecol, Ea, Eb.
  repeat (split; [reflexivity|]). split; [|split].
  - intros r t Hr Ht.
    destruct (serie_min_max (column "Fecha Pedido" d) t)
      as [a' [b' [Ea' [Eb' [Hab _]]]]].
    { unfold column. rewrite <- Ht. now apply in_map. }
    rewrite Ea in Ea'. injection Ea' as <-.
    rewrite Eb in Eb'. injection Eb' as <-. exact Hab.
  - unfold column in Ha. apply in_map_iff in Ha as [r [E Hr]]. eauto.
  - unfold column in Hb. apply in_map_iff in Hb as [r [E Hr]]. eauto.
Qed.

Lemma footer_dates_witness :
  fecha_min (enriquecer Muestra.dos_meses) = Some "15/02/2024" /\
  fecha_max (enriquecer Muestra.dos_meses) = Some "15/03/2024".
Proof.
  destruct (footer_dates Muestra.dos_meses eq_refl)
    as [a [b [_ [_ [Ha [Hb _]]]]]].
  rewrite Ha, Hb. split; reflexivity.
Defined.
